(** * CrestaStream mock server: the resource service

    A shallow embedding of the Express server of [mock-server]: the
    in-memory conversation store, the token store, the listing with its
    filters and pagination, and the metrics computation, followed by the
    properties of the service that its specification states.

    Conventions of the embedding.
    - A JavaScript string is a [string], the bytes of its UTF-8 form;
      the only operation of the server that depends on more than the
      bytes, [toLowerCase], is a parameter of the listing.
    - The scores and durations of the records are integers, [Z].  What
      [parseInt] reads from the query string, and the page, limit and
      index arithmetic on it, is a [JS.num]: an integer that binary64
      represents (the integer written is rounded to the nearest such
      one), an infinity (from 2^1024 on) or NaN.  The metrics round a
      quotient that was multiplied after the division, so they are
      computed in binary64, on [SpecFloat.spec_float].
    - A request is its parsed parts.  A body has optional fields, each of
      the JSON type the data model gives it; keys outside the data model
      are left out.  A query parameter is what Express makes of it: a
      string, an array for a repeated parameter, or an object.
    - [Math.random] and [new Date()] are inputs of the handlers that use
      them.
    - A handler is a function from the state and the request to the
      response and the new state. *)

From Stdlib Require Import ZArith String Ascii List Bool Lia.
From Stdlib Require Floats.SpecFloat.
From stdpp Require Import base option list gmap strings.

Local Open Scope string_scope.
Local Open Scope Z_scope.

(** ** JavaScript built-ins used by the server *)

Module JS.

(** *** Numbers of the metrics: binary64 *)

Abbreviation number := SpecFloat.spec_float.

Definition prec : Z := 53.
Definition emax : Z := 1024.

Definition of_Z (z : Z) : number := SpecFloat.binary_normalize prec emax z 0 false.
Definition of_nat (n : nat) : number := of_Z (Z.of_nat n).

Definition add : number -> number -> number := SpecFloat.SFadd prec emax.
Definition mul : number -> number -> number := SpecFloat.SFmul prec emax.
Definition div : number -> number -> number := SpecFloat.SFdiv prec emax.

(** [Math.round]: the integer nearest to [x], ties towards +infinity;
    NaN, the infinities and the zeros are returned as they are, and a
    result of zero keeps the sign of [x]. *)
Definition Math_round (x : number) : number :=
  match x with
  | SpecFloat.S754_finite s m e =>
      if 0 <=? e then x
      else
        let n := (2 * SpecFloat.cond_Zopp s (Z.pos m) + 2 ^ (- e)) / 2 ^ (- e + 1) in
        if n =? 0 then SpecFloat.S754_zero s else of_Z n
  | _ => x
  end.

(** [JSON.stringify] writes NaN and the infinities as [null]. *)
Definition is_json_null (x : number) : bool :=
  match x with
  | SpecFloat.S754_nan | SpecFloat.S754_infinity _ => true
  | _ => false
  end.

(** *** Truthiness *)

(** Of a string-valued property that may be missing: [undefined] and the
    empty string are falsy. *)
Definition truthy (o : option string) : bool :=
  match o with
  | Some s => negb (String.eqb s "")
  | None => false
  end.

(** [a || b] on such properties. *)
Definition or_else (o : option string) (d : string) : string :=
  match o with
  | Some s => if String.eqb s "" then d else s
  | None => d
  end.

(** [n || d] where [n] is an integer, or NaN or [undefined] (both
    [None]): these two and 0 are falsy. *)
Definition num_or (n : option Z) (d : Z) : Z :=
  match n with
  | Some z => if z =? 0 then d else z
  | None => d
  end.

(** [x === y] where [x] is a string or [null] and [y] a string or
    [undefined]: true for two equal strings only. *)
Definition strict_eq (x y : option string) : bool :=
  match x, y with
  | Some a, Some b => String.eqb a b
  | _, _ => false
  end.

(** *** Strings *)

(** [ToString] of a property that may be missing. *)
Definition ToString (o : option string) : string :=
  match o with
  | Some s => s
  | None => "undefined"
  end.

(** [s.includes(sub)] *)
Fixpoint includes (s sub : string) : bool :=
  String.prefix sub s ||
  match s with
  | EmptyString => false
  | String _ s' => includes s' sub
  end.

Fixpoint drop_chars (n : nat) (s : string) : string :=
  match n, s with
  | O, _ => s
  | S n', String _ s' => drop_chars n' s'
  | S _, EmptyString => EmptyString
  end.

(** [s.replace(pat, rep)] with a string pattern: the first occurrence
    only. *)
Fixpoint replace (s pat rep : string) : string :=
  if String.prefix pat s then rep ++ drop_chars (String.length pat) s
  else
    match s with
    | EmptyString => EmptyString
    | String a s' => String a (replace s' pat rep)
    end.

(** *** Integers as numbers *)

(** A number that is an integer, an infinity or NaN: what [parseInt]
    returns and what the index arithmetic of the listing works on.
    [Int z] always holds an integer that binary64 represents; the sign of
    a zero is not kept (it shows neither in JSON nor in [slice]). *)
Inductive num :=
  | NaN
  | Inf (negative : bool)
  | Int (z : Z).

(** The integer nearest to [n >= 0] among those of 53 significant bits,
    ties to the even one. *)
Definition round_pos (n : Z) : Z :=
  let k := Z.log2 n + 1 - 53 in
  if k <=? 0 then n
  else
    let q := n / 2 ^ k in
    let r := n mod 2 ^ k in
    let half := 2 ^ (k - 1) in
    (if (half <? r) || ((r =? half) && Z.odd q) then q + 1 else q) * 2 ^ k.

(** The binary64 value of the integer [z]: rounded to nearest, and an
    infinity from 2^1024 on. *)
Definition round64 (z : Z) : num :=
  let m := round_pos (Z.abs z) in
  if 2 ^ 1024 <=? m then Inf (z <? 0) else Int (if z <? 0 then - m else m).

(** [a - b], [a + b] and [a * b]. *)
Definition minus (a b : num) : num :=
  match a, b with
  | NaN, _ | _, NaN => NaN
  | Inf s, Inf t => if Bool.eqb s t then NaN else Inf s
  | Inf s, Int _ => Inf s
  | Int _, Inf t => Inf (negb t)
  | Int x, Int y => round64 (x - y)
  end.

Definition plus (a b : num) : num :=
  match a, b with
  | NaN, _ | _, NaN => NaN
  | Inf s, Inf t => if Bool.eqb s t then Inf s else NaN
  | Inf s, Int _ => Inf s
  | Int _, Inf t => Inf t
  | Int x, Int y => round64 (x + y)
  end.

Definition times (a b : num) : num :=
  match a, b with
  | NaN, _ | _, NaN => NaN
  | Inf s, Inf t => Inf (xorb s t)
  | Inf s, Int y => if y =? 0 then NaN else Inf (xorb s (y <? 0))
  | Int x, Inf t => if x =? 0 then NaN else Inf (xorb (x <? 0) t)
  | Int x, Int y => round64 (x * y)
  end.

(** [n || d]: NaN and 0 are falsy. *)
Definition number_or (n : num) (d : Z) : num :=
  match n with
  | NaN => Int d
  | Int z => if z =? 0 then Int d else n
  | Inf _ => n
  end.

(** *** parseInt *)

(** The white space that [parseInt] skips, on the UTF-8 bytes of the
    text: TAB, LF, VT, FF, CR and the space; U+00A0; U+1680; U+2000 to
    U+200A, U+2028, U+2029, U+202F; U+205F; U+3000; U+FEFF. *)
Definition is_space (a : ascii) : bool :=
  let n := nat_of_ascii a in
  ((9 <=? n)%nat && (n <=? 13)%nat) || (n =? 32)%nat.

Definition is_space2 (a b : ascii) : bool :=
  (nat_of_ascii a =? 194)%nat && (nat_of_ascii b =? 160)%nat.

Definition is_space3 (a b c : ascii) : bool :=
  let x := nat_of_ascii a in
  let y := nat_of_ascii b in
  let z := nat_of_ascii c in
  ((x =? 225) && (y =? 154) && (z =? 128))%nat
  || ((x =? 226) && (y =? 128)
      && ((128 <=? z) && (z <=? 138) || (z =? 168) || (z =? 169) || (z =? 175)))%nat
  || ((x =? 226) && (y =? 129) && (z =? 159))%nat
  || ((x =? 227) && (y =? 128) && (z =? 128))%nat
  || ((x =? 239) && (y =? 187) && (z =? 191))%nat.

Definition digit_value (a : ascii) : option Z :=
  let n := Z.of_nat (nat_of_ascii a) in
  if (48 <=? n) && (n <=? 57) then Some (n - 48)
  else if (97 <=? n) && (n <=? 122) then Some (n - 87)
  else if (65 <=? n) && (n <=? 90) then Some (n - 55)
  else None.

Fixpoint skip_spaces (s : string) : string :=
  match s with
  | String a s1 =>
      if is_space a then skip_spaces s1
      else
        match s1 with
        | String b s2 =>
            if is_space2 a b then skip_spaces s2
            else
              match s2 with
              | String c s3 => if is_space3 a b c then skip_spaces s3 else s
              | EmptyString => s
              end
        | EmptyString => s
        end
  | EmptyString => EmptyString
  end.

(** The value of the longest prefix of digits of radix [r], [None] when
    that prefix is empty; [acc] is the value read so far. *)
Fixpoint read_digits (r : Z) (acc : option Z) (s : string) : option Z :=
  match s with
  | String a s' =>
      match digit_value a with
      | Some d =>
          if d <? r then read_digits r (Some (r * default 0 acc + d)) s'
          else acc
      | None => acc
      end
  | EmptyString => acc
  end.

Definition strip_sign (s : string) : bool * string :=
  match s with
  | String "-" s' => (true, s')
  | String "+" s' => (false, s')
  | _ => (false, s)
  end.

Definition strip_hex_prefix (s : string) : Z * string :=
  match s with
  | String "0" (String "x" s') | String "0" (String "X" s') => (16, s')
  | _ => (10, s)
  end.

(** [parseInt(s)] without a radix: the number nearest to the integer
    that the digits spell. *)
Definition parseInt (s : string) : num :=
  let '(neg, s1) := strip_sign (skip_spaces s) in
  let '(radix, s2) := strip_hex_prefix s1 in
  match read_digits radix None s2 with
  | Some n => round64 (if neg then - n else n)
  | None => NaN
  end.

(** [a >= b] and [a <= b] for an integer [a]: a comparison with NaN is
    false. *)
Definition ge (a : Z) (b : num) : bool :=
  match b with
  | Int n => n <=? a
  | Inf negative => negative
  | NaN => false
  end.

Definition le (a : Z) (b : num) : bool :=
  match b with
  | Int n => a <=? n
  | Inf negative => negb negative
  | NaN => false
  end.

(** *** Arrays *)

(** [l.slice(s, e)]: NaN counts as 0, a negative index counts from the
    end, and both indices are clamped to the array. *)
Definition slice_index (len : Z) (i : num) : Z :=
  match i with
  | NaN => 0
  | Inf negative => if negative then 0 else len
  | Int i => if i <? 0 then Z.max (len + i) 0 else Z.min i len
  end.

Definition slice {A} (l : list A) (s e : num) : list A :=
  let len := Z.of_nat (length l) in
  let k := slice_index len s in
  let final := slice_index len e in
  take (Z.to_nat (final - k)) (drop (Z.to_nat k) l).

(** [l.findIndex(p)] *)
Fixpoint findIndex {A} (p : A -> bool) (l : list A) : option nat :=
  match l with
  | [] => None
  | x :: l' => if p x then Some O else S <$> findIndex p l'
  end.

(** [Math.ceil(a / b)] for the length [a] of an array and a number [b]
    other than 0.  An array has fewer than 2^32 elements, and for such
    an [a] the binary64 quotient lies between the same two consecutive
    integers as the exact one; a quotient by an infinity is 0. *)
Definition ceil_div (a : Z) (b : num) : num :=
  match b with
  | Int b => Int (- ((- a) / b))
  | Inf _ => Int 0
  | NaN => NaN
  end.

End JS.

(** ** Data model *)

(** A message is a JSON object with string members, in the order of its
    keys: [{role, text}] in the seed data, [{role, text, timestamp}] when
    appended by the server, whatever the client sent on creation. *)
Definition message : Type := list (string * string).

Module Conversation.
Record t := mk {
  id : string;
  title : string;
  customerName : string;
  agentName : string;
  agentId : option string;          (* [None] is [null] *)
  sentiment : string;
  status : string;
  aiScore : Z;
  duration : Z;
  createdAt : string;
  messages : list message
}.
End Conversation.

(** The JSON body of [POST /api/conversations] and of
    [PUT /api/conversations/:id]: any subset of the keys of a
    conversation.  [None] is a missing key; [agentId] may be present and
    [null]. *)
Module Body.
Record t := mk {
  id : option string;
  title : option string;
  customerName : option string;
  agentName : option string;
  agentId : option (option string);
  sentiment : option string;
  status : option string;
  aiScore : option Z;
  duration : option Z;
  createdAt : option string;
  messages : option (list message)
}.

Definition empty : t :=
  mk None None None None None None None None None None None.
End Body.

(** The query string of [GET /api/conversations], as Express parses it
    into [req.query]: a parameter that occurs once is a string, one that
    is repeated ([?search=a&search=b]) is an array, one written with
    brackets ([?search[k]=a]) is an object. *)
Module Query.

#[local] Unset Elimination Schemes.
Inductive value :=
  | Str (s : string)
  | Arr (items : list value)
  | Obj (members : list (string * value)).
#[local] Set Elimination Schemes.

Fixpoint join (sep : string) (l : list string) : string :=
  match l with
  | [] => ""
  | [x] => x
  | x :: l' => x ++ sep ++ join sep l'
  end.

(** [String(v)], as [parseInt] applies it; [undefined] for a parameter
    that is absent. *)
Fixpoint text (v : value) : string :=
  match v with
  | Str s => s
  | Arr items => join "," (map text items)
  | Obj _ => "[object Object]"
  end.

Definition ToString (o : option value) : string :=
  match o with
  | Some v => text v
  | None => "undefined"
  end.

(** Truthiness: only [undefined] and the empty string are falsy. *)
Definition truthy (o : option value) : bool :=
  match o with
  | Some (Str s) => negb (String.eqb s "")
  | Some _ => true
  | None => false
  end.

(** [x === y] for a field [x] of a record (a string or [null]): true
    only when [y] is the same string. *)
Definition strict_eq (x : option string) (y : option value) : bool :=
  match x, y with
  | Some a, Some (Str b) => String.eqb a b
  | _, _ => false
  end.

Record t := mk {
  sentiment : option value;
  status : option value;
  agentId : option value;
  search : option value;
  minScore : option value;
  maxScore : option value;
  page : option value;
  limit : option value
}.

Definition empty : t := mk None None None None None None None None.

Definition set_page (v : option value) (q : t) : t :=
  mk (sentiment q) (status q) (agentId q) (search q) (minScore q) (maxScore q) v (limit q).

(** [drops q' q]: [q'] is [q] with some of its filters removed. *)
Definition drops (q' q : t) : Prop :=
  (sentiment q' = None \/ sentiment q' = sentiment q) /\
  (status q' = None \/ status q' = status q) /\
  (agentId q' = None \/ agentId q' = agentId q) /\
  (search q' = None \/ search q' = search q) /\
  (minScore q' = None \/ minScore q' = minScore q) /\
  (maxScore q' = None \/ maxScore q' = maxScore q).
End Query.

Module User.
Record t := mk { email : string; password : string; role : string; name : string }.
End User.

(** What a key of [tokenStore] evaluates to: a user stored under it, or,
    for a key the store does not own, the member of [Object.prototype] of
    that name ([tokenStore] is a plain object). *)
Inductive principal :=
  | Account (u : User.t)
  | Builtin (key : string).

Definition Object_prototype_keys : list string :=
  [ "constructor"; "__defineGetter__"; "__defineSetter__"; "hasOwnProperty";
    "__lookupGetter__"; "__lookupSetter__"; "isPrototypeOf";
    "propertyIsEnumerable"; "toString"; "valueOf"; "__proto__";
    "toLocaleString" ].

(** The [email], [name] and [role] properties of such a value; the
    functions of [Object.prototype] have a [name]. *)
Definition principal_email (p : principal) : option string :=
  match p with Account u => Some (User.email u) | Builtin _ => None end.

Definition principal_role (p : principal) : option string :=
  match p with Account u => Some (User.role u) | Builtin _ => None end.

Definition principal_name (p : principal) : option string :=
  match p with
  | Account u => Some (User.name u)
  | Builtin k =>
      if String.eqb k "__proto__" then None
      else if String.eqb k "constructor" then Some "Object"
      else Some k
  end.

(** The process-wide state: [conversations] and [tokenStore]. *)
Record state := mkState {
  conversations : list Conversation.t;
  tokenStore : gmap string principal
}.

Record metrics := mkMetrics {
  totalConversations : nat;
  positiveCount : nat;
  negativeCount : nat;
  neutralCount : nat;
  averageAiScore : JS.number;
  resolutionRate : JS.number;
  averageHandleTime : JS.number
}.

(** *** Responses *)

Record user_view := mkView {
  view_email : option string;
  view_name : option string;
  view_role : option string
}.

(** [page], [limit] and [totalPages] are numbers of the index
    arithmetic; JSON writes an infinity as [null]. *)
Record pagination := mkPagination {
  total : Z;
  page : JS.num;
  limit : JS.num;
  totalPages : JS.num
}.

Inductive payload :=
  | Session (token refreshToken : string) (user : user_view)
      (* [{success: true, token, refreshToken, user}] *)
  | Failure (error : string)            (* [{success: false, error}] *)
  | Success                             (* [{success: true}] *)
  | Listing (data : list Conversation.t) (p : pagination)
  | One (c : Conversation.t)
  | Error (error : string)              (* [{error}] *)
  | Dashboard (m : metrics)             (* the metrics, [trends], [lastUpdated] *)
  | Uncaught.
      (* the page that Express sends when a handler throws *)

Record response := mkResponse { code : Z; json : payload }.

(** ** Seed data *)

Definition seed_conversations : list Conversation.t :=
  [ Conversation.mk "conv-001" "Müşteri Şikayeti - Kargo Gecikmesi" "Ahmet Yılmaz"
      "Ayşe Demir" (Some "agent-001") "negative" "resolved" 42 325
      "2024-01-15T09:30:00Z"
      [ [("role", "customer"); ("text", "Siparişim 5 gündür gelmedi!")];
        [("role", "agent"); ("text", "Özür dilerim, hemen kontrol ediyorum.")] ];
    Conversation.mk "conv-002" "Ürün Bilgisi Talebi" "Fatma Kaya"
      "Mehmet Öz" (Some "agent-002") "positive" "completed" 89 180
      "2024-01-15T10:15:00Z"
      [ [("role", "customer"); ("text", "Bu ürünün garantisi var mı?")];
        [("role", "agent"); ("text", "2 yıl garantisi bulunmaktadır.")] ];
    Conversation.mk "conv-003" "İade Talebi" "Ali Veli"
      "Ayşe Demir" (Some "agent-001") "neutral" "pending" 65 420
      "2024-01-15T11:00:00Z"
      [ [("role", "customer"); ("text", "Ürünü iade etmek istiyorum.")];
        [("role", "agent"); ("text", "İade talebinizi oluşturuyorum.")] ];
    Conversation.mk "conv-004" "Teknik Destek" "Zeynep Aksoy"
      "Can Yıldız" (Some "agent-003") "positive" "completed" 95 240
      "2024-01-15T14:30:00Z"
      [ [("role", "customer"); ("text", "Cihazım açılmıyor.")];
        [("role", "agent"); ("text", "Reset tuşuna 10 saniye basılı tutun.")] ];
    Conversation.mk "conv-005" "Fatura Sorunu" "Murat Çelik"
      "Mehmet Öz" (Some "agent-002") "negative" "escalated" 28 600
      "2024-01-15T16:00:00Z"
      [ [("role", "customer"); ("text", "Faturamda yanlış tutar var!")];
        [("role", "agent"); ("text", "Durumu üst birime aktarıyorum.")] ] ].

Definition users : list User.t :=
  [ User.mk "admin@crestastream.com" "admin123" "admin" "Admin User";
    User.mk "agent@crestastream.com" "agent123" "agent" "Test Agent";
    User.mk "manager@crestastream.com" "manager123" "manager" "Manager User" ].

Definition initial_state : state := mkState seed_conversations ∅.

(** ** Helper functions *)

(** [generateToken()] and [generateId()]; [r] is
    [Math.random().toString(36)] cut to the digits the function keeps. *)
Definition generateToken (r : string) : string := "token-" ++ r.

Definition generateId (r : string) : string := "conv-" ++ r.

Definition count (p : Conversation.t -> bool) (cs : list Conversation.t) : nat :=
  length (List.filter p cs).

(** [reduce((sum, c) => sum + f(c), 0)] *)
Definition sum_of (f : Conversation.t -> Z) (cs : list Conversation.t) : JS.number :=
  fold_left (fun sum c => JS.add sum (JS.of_Z (f c))) cs (JS.of_Z 0).

Definition calculateMetrics (cs : list Conversation.t) : metrics :=
  let total := length cs in
  let positive := count (fun c => String.eqb (Conversation.sentiment c) "positive") cs in
  let negative := count (fun c => String.eqb (Conversation.sentiment c) "negative") cs in
  let neutral := count (fun c => String.eqb (Conversation.sentiment c) "neutral") cs in
  let avgScore := JS.Math_round (JS.div (sum_of Conversation.aiScore cs) (JS.of_nat total)) in
  let resolved :=
    count (fun c => String.eqb (Conversation.status c) "resolved"
                    || String.eqb (Conversation.status c) "completed") cs in
  {| totalConversations := total;
     positiveCount := positive;
     negativeCount := negative;
     neutralCount := neutral;
     averageAiScore := avgScore;
     resolutionRate :=
       JS.Math_round (JS.mul (JS.div (JS.of_nat resolved) (JS.of_nat total)) (JS.of_Z 100));
     averageHandleTime :=
       JS.Math_round (JS.div (sum_of Conversation.duration cs) (JS.of_nat total)) |}.

(** ** Auth endpoints *)

(** [tokenStore[k]]: the store's own binding, else what the key inherits
    from [Object.prototype], else [undefined]. *)
Definition tokenStore_get (ts : gmap string principal) (k : string) : option principal :=
  match ts !! k with
  | Some p => Some p
  | None => if bool_decide (k ∈ Object_prototype_keys) then Some (Builtin k) else None
  end.

(** [{email: user.email, name: user.name, role: user.role}] *)
Definition view (p : principal) : user_view :=
  mkView (principal_email p) (principal_name p) (principal_role p).

(** [req.headers.authorization?.replace('Bearer ', '')] *)
Definition bearer (authorization : option string) : option string :=
  (fun h => JS.replace h "Bearer " "") <$> authorization.

(** [users.find(u => u.email === email && u.password === password)] *)
Definition authenticate (email password : option string) : option User.t :=
  List.find (fun u => JS.strict_eq (Some (User.email u)) email
                      && JS.strict_eq (Some (User.password u)) password) users.

(** [POST /api/auth/login] with body [{email, password}]; [r1] and [r2]
    come from [Math.random]. *)
Definition post_auth_login (st : state) (email password : option string)
    (r1 r2 : string) : response * state :=
  match authenticate email password with
  | Some user =>
      let token := generateToken r1 in
      let refreshToken := "ref-" ++ generateToken r2 in
      (mkResponse 200 (Session token refreshToken (view (Account user))),
       mkState (conversations st)
         (<[refreshToken := Account user]> (<[token := Account user]> (tokenStore st))))
  | None => (mkResponse 401 (Failure "Invalid credentials"), st)
  end.

(** [incomingRefreshToken || req.headers.authorization?.replace(...)] *)
Definition tokenToVerify (refreshToken authorization : option string) : option string :=
  if JS.truthy refreshToken then refreshToken else bearer authorization.

(** [POST /api/auth/refresh] with body [{refreshToken}]; [r1] and [r2]
    come from [Math.random]. *)
Definition post_auth_refresh (st : state) (refreshToken authorization : option string)
    (r1 r2 : string) : response * state :=
  let key := JS.ToString (tokenToVerify refreshToken authorization) in
  match tokenStore_get (tokenStore st) key with
  | Some user =>
      let newToken := generateToken r1 in
      let newRefreshToken := "ref-" ++ generateToken r2 in
      (mkResponse 200 (Session newToken newRefreshToken (view user)),
       mkState (conversations st)
         (<[newRefreshToken := user]> (<[newToken := user]> (delete key (tokenStore st)))))
  | None => (mkResponse 401 (Failure "Invalid token"), st)
  end.

(** [POST /api/auth/logout] *)
Definition post_auth_logout (st : state) (authorization : option string) : response * state :=
  let token := bearer authorization in
  (mkResponse 200 Success,
   if JS.truthy token
   then mkState (conversations st) (delete (JS.ToString token) (tokenStore st))
   else st).

(** ** Conversations endpoints *)

Section Listing.

(** [String.prototype.toLowerCase] *)
Variable toLowerCase : string -> string.

(** The callbacks of the six filters. *)
Definition by_sentiment (q : Query.t) (c : Conversation.t) : bool :=
  Query.strict_eq (Some (Conversation.sentiment c)) (Query.sentiment q).

Definition by_status (q : Query.t) (c : Conversation.t) : bool :=
  Query.strict_eq (Some (Conversation.status c)) (Query.status q).

Definition by_agentId (q : Query.t) (c : Conversation.t) : bool :=
  Query.strict_eq (Conversation.agentId c) (Query.agentId q).

(** [req.query.search.toLowerCase()] is called before the filter runs: on
    an array or an object it is not a function, and the handler throws. *)
Definition search_throws (q : Query.t) : bool :=
  match Query.search q with
  | Some (Query.Arr _) | Some (Query.Obj _) => true
  | _ => false
  end.

(** The callback of the search filter, which is reached with a string
    only. *)
Definition by_search (q : Query.t) (c : Conversation.t) : bool :=
  match Query.search q with
  | Some (Query.Str s) =>
      let search := toLowerCase s in
      JS.includes (toLowerCase (Conversation.title c)) search
      || JS.includes (toLowerCase (Conversation.customerName c)) search
  | _ => false
  end.

Definition by_minScore (q : Query.t) (c : Conversation.t) : bool :=
  JS.ge (Conversation.aiScore c) (JS.parseInt (Query.ToString (Query.minScore q))).

Definition by_maxScore (q : Query.t) (c : Conversation.t) : bool :=
  JS.le (Conversation.aiScore c) (JS.parseInt (Query.ToString (Query.maxScore q))).

(** [if (param) { result = result.filter(callback) }] *)
Definition filter_if (param : option Query.value) (callback : Conversation.t -> bool)
    (result : list Conversation.t) : list Conversation.t :=
  if Query.truthy param then List.filter callback result else result.

(** [result] after the filtering part of the handler, when it does not
    throw. *)
Definition filtered (q : Query.t) (cs : list Conversation.t) : list Conversation.t :=
  let result := cs in
  let result := filter_if (Query.sentiment q) (by_sentiment q) result in
  let result := filter_if (Query.status q) (by_status q) result in
  let result := filter_if (Query.agentId q) (by_agentId q) result in
  let result := filter_if (Query.search q) (by_search q) result in
  let result := filter_if (Query.minScore q) (by_minScore q) result in
  let result := filter_if (Query.maxScore q) (by_maxScore q) result in
  result.

(** What the filtering part asks of a record: the conjunction of the
    callbacks of the filters whose parameter is truthy. *)
Definition passes_all (q : Query.t) (c : Conversation.t) : bool :=
  implb (Query.truthy (Query.sentiment q)) (by_sentiment q c)
  && (implb (Query.truthy (Query.status q)) (by_status q c)
  && (implb (Query.truthy (Query.agentId q)) (by_agentId q c)
  && (implb (Query.truthy (Query.search q)) (by_search q c)
  && (implb (Query.truthy (Query.minScore q)) (by_minScore q c)
  && implb (Query.truthy (Query.maxScore q)) (by_maxScore q c))))).

(** [parseInt(req.query.page) || 1] and [parseInt(req.query.limit) || 10] *)
Definition page_of (q : Query.t) : JS.num :=
  JS.number_or (JS.parseInt (Query.ToString (Query.page q))) 1.

Definition limit_of (q : Query.t) : JS.num :=
  JS.number_or (JS.parseInt (Query.ToString (Query.limit q))) 10.

(** [GET /api/conversations].  When the handler throws, Express answers
    500; nothing was changed before. *)
Definition get_conversations (st : state) (q : Query.t) : response * state :=
  if search_throws q then (mkResponse 500 Uncaught, st)
  else
    let result := filtered q (conversations st) in
    let page := page_of q in
    let limit := limit_of q in
    let startIndex := JS.times (JS.minus page (JS.Int 1)) limit in
    let endIndex := JS.plus startIndex limit in
    let paginatedResult := JS.slice result startIndex endIndex in
    (mkResponse 200
       (Listing paginatedResult
          {| total := Z.of_nat (length result);
             page := page;
             limit := limit;
             totalPages := JS.ceil_div (Z.of_nat (length result)) limit |}),
     st).

End Listing.

Definition has_id (id : string) (c : Conversation.t) : bool :=
  String.eqb (Conversation.id c) id.

(** [GET /api/conversations/:id] *)
Definition get_conversation (st : state) (id : string) : response * state :=
  match List.find (has_id id) (conversations st) with
  | Some conversation => (mkResponse 200 (One conversation), st)
  | None => (mkResponse 404 (Error "Conversation not found"), st)
  end.

(** [req.body.agentId || null] *)
Definition agentId_or_null (a : option (option string)) : option string :=
  match a with
  | Some (Some s) => if String.eqb s "" then None else Some s
  | _ => None
  end.

(** The object literal [newConversation] of [POST /api/conversations];
    [r] comes from [Math.random] and [now] is [new Date().toISOString()]. *)
Definition newConversation (body : Body.t) (r now : string) : Conversation.t :=
  {| Conversation.id := generateId r;
     Conversation.title := JS.or_else (Body.title body) "New Conversation";
     Conversation.customerName := JS.or_else (Body.customerName body) "Unknown Customer";
     Conversation.agentName := JS.or_else (Body.agentName body) "Unassigned";
     Conversation.agentId := agentId_or_null (Body.agentId body);
     Conversation.sentiment := JS.or_else (Body.sentiment body) "neutral";
     Conversation.status := JS.or_else (Body.status body) "pending";
     Conversation.aiScore := JS.num_or (Body.aiScore body) 50;
     Conversation.duration := JS.num_or (Body.duration body) 0;
     Conversation.createdAt := now;
     Conversation.messages := default [] (Body.messages body) |}.

(** [POST /api/conversations]: [unshift] puts the new record first. *)
Definition post_conversations (st : state) (body : Body.t) (r now : string)
    : response * state :=
  let c := newConversation body r now in
  (mkResponse 201 (One c), mkState (c :: conversations st) (tokenStore st)).

(** [{...c, ...body}]: every key of the body overwrites the key of [c]. *)
Definition spread (c : Conversation.t) (body : Body.t) : Conversation.t :=
  {| Conversation.id := default (Conversation.id c) (Body.id body);
     Conversation.title := default (Conversation.title c) (Body.title body);
     Conversation.customerName := default (Conversation.customerName c) (Body.customerName body);
     Conversation.agentName := default (Conversation.agentName c) (Body.agentName body);
     Conversation.agentId := default (Conversation.agentId c) (Body.agentId body);
     Conversation.sentiment := default (Conversation.sentiment c) (Body.sentiment body);
     Conversation.status := default (Conversation.status c) (Body.status body);
     Conversation.aiScore := default (Conversation.aiScore c) (Body.aiScore body);
     Conversation.duration := default (Conversation.duration c) (Body.duration body);
     Conversation.createdAt := default (Conversation.createdAt c) (Body.createdAt body);
     Conversation.messages := default (Conversation.messages c) (Body.messages body) |}.

#[global] Instance conversation_inhabited : Inhabited Conversation.t :=
  populate (Conversation.mk "" "" "" "" None "" "" 0 0 "" []).

(** [PUT /api/conversations/:id] *)
Definition put_conversation (st : state) (id : string) (body : Body.t)
    : response * state :=
  match JS.findIndex (has_id id) (conversations st) with
  | Some index =>
      let updated := spread (conversations st !!! index) body in
      (mkResponse 200 (One updated),
       mkState (<[index := updated]> (conversations st)) (tokenStore st))
  | None => (mkResponse 404 (Error "Conversation not found"), st)
  end.

(** [DELETE /api/conversations/:id] *)
Definition delete_conversation (st : state) (id : string) : response * state :=
  match JS.findIndex (has_id id) (conversations st) with
  | Some index =>
      (mkResponse 200 Success,
       mkState (delete index (conversations st)) (tokenStore st))
  | None => (mkResponse 404 (Error "Conversation not found"), st)
  end.

(** ** Metrics endpoint *)

(** [GET /api/metrics] *)
Definition get_metrics (st : state) : response * state :=
  (mkResponse 200 (Dashboard (calculateMetrics (conversations st))), st).

(** [toLowerCase] on the letters A to Z, for running the listing on ASCII
    strings. *)
Definition ascii_toLowerCase_char (a : ascii) : ascii :=
  let n := nat_of_ascii a in
  if ((65 <=? n) && (n <=? 90))%nat then ascii_of_nat (n + 32) else a.

Fixpoint ascii_toLowerCase (s : string) : string :=
  match s with
  | EmptyString => EmptyString
  | String a s' => String (ascii_toLowerCase_char a) (ascii_toLowerCase s')
  end.

(** ** Message endpoint *)

(** The object literal [newMessage]: a [text] that the body does not
    carry is [undefined], a key that JSON leaves out. *)
Definition newMessage (role text : option string) (now : string) : message :=
  ([("role", JS.or_else role "customer")]
   ++ match text with Some t => [("text", t)] | None => [] end
   ++ [("timestamp", now)])%list.

(** [conversation.messages.push(m)] *)
Definition push_message (c : Conversation.t) (m : message) : Conversation.t :=
  {| Conversation.id := Conversation.id c;
     Conversation.title := Conversation.title c;
     Conversation.customerName := Conversation.customerName c;
     Conversation.agentName := Conversation.agentName c;
     Conversation.agentId := Conversation.agentId c;
     Conversation.sentiment := Conversation.sentiment c;
     Conversation.status := Conversation.status c;
     Conversation.aiScore := Conversation.aiScore c;
     Conversation.duration := Conversation.duration c;
     Conversation.createdAt := Conversation.createdAt c;
     Conversation.messages := (Conversation.messages c ++ [m])%list |}.

(** [POST /api/conversations/:id/messages] with body [{role, text}].  The
    handler looks the record up with [find] and pushes onto its
    [messages] array, which no other record shares: the record changes in
    its place, the first one with that id. *)
Definition post_conversation_messages (st : state) (id : string)
    (role text : option string) (now : string) : response * state :=
  match JS.findIndex (has_id id) (conversations st) with
  | Some index =>
      let conversation :=
        push_message (conversations st !!! index) (newMessage role text now) in
      (mkResponse 200 (One conversation),
       mkState (<[index := conversation]> (conversations st)) (tokenStore st))
  | None => (mkResponse 404 (Error "Conversation not found"), st)
  end.

(** ** The client's side of the listing *)

(** [String(value)], by which [ApiClient.getConversations] turns the
    numbers among its parameters into the text of the query string. *)
Module JSText.

(** The character of the decimal digit [d], for [0 <= d < 10]. *)
Definition digit_char (d : Z) : ascii := ascii_of_nat (48 + Z.to_nat d).

(** The decimal digits of [n >= 0], written in front of [acc]; at most
    [fuel + 1] of them. *)
Fixpoint digits (fuel : nat) (n : Z) (acc : string) : string :=
  let acc' := String (digit_char (n mod 10)) acc in
  match fuel with
  | O => acc'
  | S fuel' => if n <? 10 then acc' else digits fuel' (n / 10) acc'
  end.

(** The decimal digits of [n >= 0]. *)
Definition decimal (n : Z) : string := digits (Z.to_nat (Z.log2 n)) n "".

Definition zeros (e : Z) : string := string_of_list_ascii (repeat "0"%char (Z.to_nat e)).

(** [(s, e)] without the zeros at the end of [s], counted into [e]. *)
Fixpoint strip_zeros (fuel : nat) (s e : Z) : Z * Z :=
  match fuel with
  | O => (s, e)
  | S fuel' =>
      if (0 <? s) && (s mod 10 =? 0) then strip_zeros fuel' (s / 10) (e + 1) else (s, e)
  end.

(** The digits that [String] writes for a number [m >= 2^53]: the
    fewest significant digits [s], with their exponent [e], such that
    [s * 10^e] still rounds to [m], and among those the nearest to [m]
    (the even [s] of two that are as near). *)
Definition shortest (m : Z) : Z * Z :=
  let width := Z.of_nat (String.length (decimal m)) in
  let candidates :=
    flat_map
      (fun k : nat =>
         let e := width - Z.of_nat k in
         let s := m / 10 ^ e in
         let r := m mod 10 ^ e in
         if (2 * r <? 10 ^ e) || ((2 * r =? 10 ^ e) && Z.even s)
         then [(s, e); (s + 1, e)]
         else [(s + 1, e); (s, e)])
      (seq 1 17) in
  match List.find (fun c => JS.round_pos (fst c * 10 ^ snd c) =? m) candidates with
  | Some c => strip_zeros 25 (fst c) (snd c)
  | None => (m, 0)
  end.

(** [String(n)] for the number nearest to the integer [n]: below 2^53
    its decimal digits; from there on the shortest digits that read back
    as the number, followed by zeros, or by an exponent from 10^21 on. *)
Definition String_of_int (n : Z) : string :=
  match JS.round64 n with
  | JS.NaN => "NaN"
  | JS.Inf negative => if negative then "-Infinity" else "Infinity"
  | JS.Int z =>
      let m := Z.abs z in
      let sign := if z <? 0 then "-" else "" in
      if m <? 2 ^ 53 then sign ++ decimal m
      else
        let '(s, e) := shortest m in
        let ds := decimal s in
        let width := Z.of_nat (String.length ds) + e in
        if width <=? 21 then sign ++ ds ++ zeros e
        else
          match ds with
          | String d EmptyString => sign ++ String d "e+" ++ decimal (width - 1)
          | String d rest => sign ++ String d ("." ++ rest) ++ "e+" ++ decimal (width - 1)
          | EmptyString => sign
          end
  end.

End JSText.

(** What [digits] writes starts with a digit, and a digit or nothing
    follows it. *)
Definition digit_led (t : string) : Prop :=
  t = "" \/ exists d t', 0 <= d < 10 /\ t = String (JSText.digit_char d) t'.


(** The same query for page [p], as the client writes it. *)
Definition for_page (p : Z) (q : Query.t) : Query.t :=
  Query.set_page (Some (Query.Str (JSText.String_of_int p))) q.

(** ** The logger of the test suite *)

Module Logger.

Inductive LogLevel := DEBUG | INFO | WARN | ERROR | ACTION.

Definition level_text (l : LogLevel) : string :=
  match l with
  | DEBUG => "DEBUG" | INFO => "INFO" | WARN => "WARN" | ERROR => "ERROR"
  | ACTION => "ACTION"
  end.

(** ANSI colour codes. *)
Definition esc : string := String (ascii_of_nat 27) "".
Definition Colors_reset : string := esc ++ "[0m".
Definition Colors_dim : string := esc ++ "[2m".
Definition Colors_red : string := esc ++ "[31m".
Definition Colors_green : string := esc ++ "[32m".
Definition Colors_yellow : string := esc ++ "[33m".
Definition Colors_blue : string := esc ++ "[34m".
Definition Colors_cyan : string := esc ++ "[36m".
Definition Colors_gray : string := esc ++ "[90m".

Definition LevelColors (l : LogLevel) : string :=
  match l with
  | DEBUG => Colors_gray
  | INFO => Colors_blue
  | WARN => Colors_yellow
  | ERROR => Colors_red
  | ACTION => Colors_green
  end.

Definition LevelPriority (l : LogLevel) : Z :=
  match l with
  | DEBUG => 0
  | INFO => 1
  | ACTION => 2
  | WARN => 3
  | ERROR => 4
  end.

(** A value of a context, which is a [Record<string, unknown>]. *)
Inductive value :=
  | Text (s : string)
  | Number (n : Z)
  | Boolean (b : bool)
  | Undefined.

Definition context : Type := list (string * value).

Module Entry.
Record t := mk {
  timestamp : string;
  level : LogLevel;
  source : string;
  message : string;
  context : option Logger.context;
  traceId : string;
  duration : option Z
}.
End Entry.

(** [LoggerOptions], every field optional. *)
Module Options.
Record t := mk {
  minLevel : option LogLevel;
  enableConsole : option bool;
  enableJson : option bool;
  traceId : option string
}.
End Options.

(** An instance: its [source] and its [options], all set. *)
Record t := mk {
  source : string;
  minLevel : LogLevel;
  enableConsole : bool;
  enableJson : bool;
  traceId : string
}.

(** The static fields of the class. *)
Record statics := mkStatics {
  globalTraceId : string;
  testStartTime : Z
}.

(** What [console.log] receives: a formatted line, or the JSON text of an
    entry. *)
Inductive line :=
  | Console (text : string)
  | Json (entry : Entry.t).

(** How a call ends: it returns, or [formatForConsole] throws on a
    timestamp without 'T' (which [toISOString] never gives). *)
Inductive outcome := Returned | Threw.

(** [s.split(sep)] for a separator of one character. *)
Fixpoint split (sep : ascii) (s : string) : list string :=
  match s with
  | EmptyString => [EmptyString]
  | String a s' =>
      if Ascii.eqb a sep then EmptyString :: split sep s'
      else
        match split sep s' with
        | h :: t => String a h :: t
        | [] => [String a EmptyString]
        end
  end.

(** [s.padEnd(n)] *)
Definition padEnd (s : string) (n : nat) : string :=
  s ++ string_of_list_ascii (repeat " "%char (n - String.length s)).

(** [entry.timestamp.split('T')[1].split('.')[0]]; [None] when the
    timestamp has no 'T', where the second [split] is called on
    [undefined] and throws. *)
Definition clock (timestamp : string) : option string :=
  match split "T" timestamp !! 1%nat with
  | Some time => head (split "." time)
  | None => None
  end.

(** The part of the console line that the two [formatForConsole] share. *)
Definition console_prefix (time : string) (e : Entry.t) : string :=
  Colors_dim ++ "[" ++ time ++ "]" ++ Colors_reset ++ " "
  ++ LevelColors (Entry.level e) ++ "[" ++ padEnd (level_text (Entry.level e)) 6 ++ "]"
  ++ Colors_reset ++ " "
  ++ Colors_cyan ++ "[" ++ Entry.source e ++ "]" ++ Colors_reset ++ " "
  ++ Entry.message e.

Section Formatting.

(** [JSON.stringify] of a context. *)
Variable JSON_stringify : context -> string.

(** The constructor; [g] holds the static fields at that time. *)
Definition new (g : statics) (source : string) (options : Options.t) : t :=
  {| source := source;
     minLevel := default DEBUG (Options.minLevel options);
     enableConsole := default true (Options.enableConsole options);
     enableJson := default false (Options.enableJson options);
     traceId := default (globalTraceId g) (Options.traceId options) |}.

(** The method [formatForConsole] of an instance. *)
Definition formatForConsole (e : Entry.t) : option string :=
  match clock (Entry.timestamp e) with
  | Some time =>
      let output := console_prefix time e in
      Some match Entry.context e with
           | Some c =>
               if (0 <? length c)%nat
               then output ++ " " ++ Colors_dim ++ JSON_stringify c ++ Colors_reset
               else output
           | None => output
           end
  | None => None
  end.

(** The method [log]; [now] is [new Date().toISOString()].  The result
    is what was printed and how the call ended. *)
Definition log (l : t) (g : statics) (level : LogLevel) (message : string)
    (c : option context) (now : string) : list line * outcome :=
  if LevelPriority level <? LevelPriority (minLevel l) then ([], Returned)
  else
    let entry :=
      {| Entry.timestamp := now;
         Entry.level := level;
         Entry.source := source l;
         Entry.message := message;
         Entry.context := c;
         Entry.traceId := if String.eqb (traceId l) "" then globalTraceId g else traceId l;
         Entry.duration := None |} in
    let json := if enableJson l then [Json entry] else [] in
    if enableConsole l then
      match formatForConsole entry with
      | Some text => (Console text :: json, Returned)
      | None => ([], Threw)
      end
    else (json, Returned).

Definition debug (l : t) (g : statics) (message : string) (c : option context) :=
  log l g DEBUG message c.

Definition info (l : t) (g : statics) (message : string) (c : option context) :=
  log l g INFO message c.

Definition warn (l : t) (g : statics) (message : string) (c : option context) :=
  log l g WARN message c.

Definition error (l : t) (g : statics) (message : string) (c : option context) :=
  log l g ERROR message c.

Definition action (l : t) (g : statics) (message : string) (c : option context) :=
  log l g ACTION ("▶ " ++ message) c.

Definition assertion (l : t) (g : statics) (description : string) (passed : bool) :=
  let emoji := if passed then "✓" else "✗" in
  let level := if passed then INFO else ERROR in
  log l g level (emoji ++ " Assertion: " ++ description)
    (Some [("passed", Boolean passed)]).

End Formatting.

(** The static [formatForConsole], with the duration and without the
    context. *)
Definition static_formatForConsole (e : Entry.t) : option string :=
  match clock (Entry.timestamp e) with
  | Some time =>
      let durationStr :=
        match Entry.duration e with
        | Some d => if d =? 0 then "" else " (" ++ JSText.String_of_int d ++ "ms)"
        | None => ""
        end in
      Some (console_prefix time e ++ durationStr)
  | None => None
  end.

Inductive status := PASSED | FAILED | SKIPPED.

Definition status_text (s : status) : string :=
  match s with PASSED => "PASSED" | FAILED => "FAILED" | SKIPPED => "SKIPPED" end.

Definition rule : string :=
  "═══════════════════════════════════════════════════════".

(** [console.log(Logger.formatForConsole(a))] and then the same for
    [b]. *)
Definition print_two (a b : Entry.t) : list line * outcome :=
  match static_formatForConsole a with
  | Some ta =>
      match static_formatForConsole b with
      | Some tb => ([Console ta; Console tb], Returned)
      | None => ([Console ta], Threw)
      end
  | None => ([], Threw)
  end.

(** [Logger.startTest(testName)]: [ms1] and [ms2] are the two readings of
    [Date.now()], [r] comes from [Math.random], [iso1] and [iso2] are the
    two timestamps.  The result is what was printed, how the call ended,
    and the new static fields. *)
Definition startTest (testName : string) (ms1 ms2 : Z) (r iso1 iso2 : string)
    : list line * outcome * statics :=
  let g := {| globalTraceId := "test-" ++ JSText.String_of_int ms1 ++ "-" ++ r;
              testStartTime := ms2 |} in
  let entry := Entry.mk iso1 INFO "TestRunner" rule None (globalTraceId g) None in
  let startEntry :=
    Entry.mk iso2 INFO "TestRunner" ("🚀 TEST STARTED: " ++ testName) None
      (globalTraceId g) None in
  (print_two entry startEntry, g).

(** [Logger.endTest(testName, status)]; [ms] is [Date.now()].  The trace
    id is reset after the two lines were printed. *)
Definition endTest (g : statics) (testName : string) (s : status) (ms : Z)
    (iso1 iso2 : string) : list line * outcome * statics :=
  let duration := ms - testStartTime g in
  let statusEmoji := match s with PASSED => "✅" | FAILED => "❌" | SKIPPED => "⏭️" end in
  let entry :=
    Entry.mk iso1 (match s with FAILED => ERROR | _ => INFO end) "TestRunner"
      (statusEmoji ++ " TEST " ++ status_text s ++ ": " ++ testName) None
      (globalTraceId g) (Some duration) in
  let separator :=
    Entry.mk iso2 INFO "TestRunner" (rule ++ String (ascii_of_nat 10) "") None
      (globalTraceId g) None in
  let printed := print_two entry separator in
  (printed,
   match snd printed with
   | Returned => {| globalTraceId := ""; testStartTime := testStartTime g |}
   | Threw => g
   end).

(** [c] does not occur in [s]. *)
Fixpoint free_of (c : ascii) (s : string) : Prop :=
  match s with
  | EmptyString => True
  | String a s' => a <> c /\ free_of c s'
  end.

(** The shape of [toISOString]: a date, 'T', a time, '.', the rest. *)
Definition iso (timestamp date time rest : string) : Prop :=
  timestamp = date ++ "T" ++ time ++ "." ++ rest /\
  free_of "T" date /\ free_of "T" time /\ free_of "." time.

End Logger.

(** Inputs for running the logger: a timestamp of [toISOString], and a
    stand-in for [JSON.stringify]. *)
Definition sample_timestamp : string := "2024-01-15T09:30:00.000Z".

Definition braces (c : Logger.context) : string := "{...}".

(** ** Runs of the server *)

(** One request that may change the state.  The other handlers
    ([GET /api/conversations], [GET /api/conversations/:id],
    [GET /api/metrics]) return the state they were given. *)
Inductive step : state -> state -> Prop :=
  | step_login st email password r1 r2 :
      step st (snd (post_auth_login st email password r1 r2))
  | step_refresh st refreshToken authorization r1 r2 :
      step st (snd (post_auth_refresh st refreshToken authorization r1 r2))
  | step_logout st authorization :
      step st (snd (post_auth_logout st authorization))
  | step_create st body r now :
      step st (snd (post_conversations st body r now))
  | step_update st id body :
      step st (snd (put_conversation st id body))
  | step_delete st id :
      step st (snd (delete_conversation st id))
  | step_message st id role text now :
      step st (snd (post_conversation_messages st id role text now)).

(** The states the server can be in: those a sequence of requests leads
    to from the state at start-up. *)
Definition reachable (st : state) : Prop := rtc step initial_state st.

(** A key of the shape the two generators give. *)
Definition issued (k : string) : Prop :=
  exists r, k = generateToken r \/ k = "ref-" ++ generateToken r.

(** The ids of the records, in the order of the store. *)
Definition ids (cs : list Conversation.t) : list string := map Conversation.id cs.

(** ** Requests and responses used in the statements *)


(** A create body as the API test suite sends it, with an [id] and a
    [createdAt] added. *)
Definition sample_body : Body.t :=
  Body.mk (Some "conv-001") None (Some "API Test Customer") None
    (Some (Some "test-agent-001")) None None None None (Some "1999-01-01T00:00:00Z")
    (Some [[("sender", "customer"); ("content", "Hello from API test")]]).

(** A create body whose title, customerName and aiScore are falsy. *)
Definition falsy_body : Body.t :=
  Body.mk None (Some "") (Some "") None None None None (Some 0) None None None.

(** An update body that carries an [id] and a [createdAt]. *)
Definition rename_body : Body.t :=
  Body.mk (Some "conv-999") None (Some "Updated Customer Name") None None None None None
    None (Some "1999-01-01T00:00:00Z") None.

Definition admin : User.t :=
  User.mk "admin@crestastream.com" "admin123" "admin" "Admin User".

(** [?sentiment=positive&status=completed] and the same query without its
    status filter. *)
Definition positive_completed : Query.t :=
  Query.mk (Some (Query.Str "positive")) (Some (Query.Str "completed"))
    None None None None None None.

Definition positive_only : Query.t :=
  Query.mk (Some (Query.Str "positive")) None None None None None None None.

(** [?page=p&limit=l] *)
Definition paged (p l : string) : Query.t :=
  Query.mk None None None None None None (Some (Query.Str p)) (Some (Query.Str l)).

(** The digit 1 followed by 309 zeros, an integer beyond the largest
    binary64 number. *)
Definition ten_to_309 : string := String "1" (JSText.zeros 309).

(** A no-break space (U+00A0) followed by 50. *)
Definition nbsp_50 : string :=
  String (ascii_of_nat 194) (String (ascii_of_nat 160) "50").


Definition no_empty_key (st : state) : Prop := tokenStore st !! "" = None.

(** * Properties *)

(** ** Built-ins *)

Example parseInt_ex1 : JS.parseInt "42" = JS.Int 42. Proof. reflexivity. Qed.
Example parseInt_ex2 : JS.parseInt "  -7px" = JS.Int (-7). Proof. reflexivity. Qed.
Example parseInt_ex3 : JS.parseInt "0x1F" = JS.Int 31. Proof. reflexivity. Qed.
Example parseInt_ex4 : JS.parseInt "abc" = JS.NaN. Proof. reflexivity. Qed.
Example parseInt_ex5 : JS.parseInt (Query.ToString None) = JS.NaN. Proof. reflexivity. Qed.
Example parseInt_ex6 : JS.parseInt nbsp_50 = JS.Int 50. Proof. reflexivity. Qed.
Example parseInt_ex7 : JS.parseInt "9007199254740993" = JS.Int 9007199254740992.
Proof. reflexivity. Qed.
Example parseInt_ex8 : JS.parseInt ten_to_309 = JS.Inf false. Proof. vm_compute. reflexivity. Qed.
Example parseInt_ex9 :
  JS.parseInt (Query.text (Query.Arr [Query.Str "7"; Query.Str "9"])) = JS.Int 7.
Proof. reflexivity. Qed.
Example round64_ex1 :
  JS.of_Z 9007199254740993 = JS.of_Z 9007199254740992
  /\ JS.round64 9007199254740993 = JS.Int 9007199254740992.
Proof. split; vm_compute; reflexivity. Qed.
Example round64_ex2 :
  JS.of_Z 9007199254740995 = JS.of_Z 9007199254740996
  /\ JS.round64 9007199254740995 = JS.Int 9007199254740996.
Proof. split; vm_compute; reflexivity. Qed.
Example replace_ex1 : JS.replace "Bearer token-1" "Bearer " "" = "token-1". Proof. reflexivity. Qed.
Example replace_ex2 : JS.replace "xBearer yBearer z" "Bearer " "" = "xyBearer z". Proof. reflexivity. Qed.
Example slice_ex1 : JS.slice [1;2;3;4;5] (JS.Int (-4)) (JS.Int (-2)) = [2;3].
Proof. reflexivity. Qed.
Example slice_ex2 : JS.slice [1;2;3;4;5] JS.NaN (JS.Inf false) = [1;2;3;4;5].
Proof. reflexivity. Qed.
Example slice_ex3 : JS.slice [1;2;3;4;5] JS.NaN JS.NaN = [].
Proof. reflexivity. Qed.
Example round_ex1 : JS.Math_round (JS.div (JS.of_Z 5) (JS.of_Z 2)) = JS.of_Z 3. Proof. vm_compute. reflexivity. Qed.
Example round_ex2 : JS.Math_round (JS.div (JS.of_Z (-5)) (JS.of_Z 2)) = JS.of_Z (-2). Proof. vm_compute. reflexivity. Qed.
Example round_ex3 : JS.Math_round (JS.mul (JS.div (JS.of_Z 29) (JS.of_Z 200)) (JS.of_Z 100)) = JS.of_Z 14. Proof. vm_compute. reflexivity. Qed.


(** ** Metrics *)

Example metrics_of_seed :
  calculateMetrics seed_conversations =
  mkMetrics 5 2 2 1 (JS.of_Z 64) (JS.of_Z 60) (JS.of_Z 353).
Proof. vm_compute. reflexivity. Qed.

(** C1 (the code departs from it): the specification asks that on the
    empty store the metrics be defined numbers, [averageAiScore] and
    [resolutionRate] being 0.  In the code the three quotients are
    computed as [0 / 0]: each of them is NaN, which is not 0 and which the
    JSON response carries as [null]. *)
Theorem metrics_of_empty_store :
  let m := calculateMetrics [] in
  averageAiScore m = SpecFloat.S754_nan /\
  resolutionRate m = SpecFloat.S754_nan /\
  averageHandleTime m = SpecFloat.S754_nan /\
  averageAiScore m <> JS.of_Z 0 /\
  resolutionRate m <> JS.of_Z 0 /\
  JS.is_json_null (averageHandleTime m) = true /\
  get_metrics (mkState [] ∅) =
    (mkResponse 200 (Dashboard (mkMetrics 0 0 0 0 SpecFloat.S754_nan SpecFloat.S754_nan
                                  SpecFloat.S754_nan)), mkState [] ∅).
Proof. vm_compute. repeat split; discriminate. Qed.

(** ** Logout *)

(** C10: logout always answers 200 [{success: true}], whatever the
    Authorization header; it leaves the conversations alone, removes the
    binding of the bearer token when the header carries a non-empty one,
    and keeps every other binding, so that it changes nothing when the
    token is not in the store or the header is missing. *)
Theorem logout_never_fails (st : state) (authorization : option string) :
  fst (post_auth_logout st authorization) = mkResponse 200 Success /\
  conversations (snd (post_auth_logout st authorization)) = conversations st /\
  (forall k : string,
     tokenStore (snd (post_auth_logout st authorization)) !! k =
     if bool_decide (bearer authorization = Some k /\ k <> "")
     then None else tokenStore st !! k) /\
  ((authorization = None \/
    exists t, bearer authorization = Some t /\ tokenStore st !! t = None) ->
   snd (post_auth_logout st authorization) = st).
Proof.
  unfold post_auth_logout; cbn [fst snd].
  split; [reflexivity|].
  destruct (bearer authorization) as [t|] eqn:Hb; cbn [JS.truthy JS.ToString].
  - destruct (String.eqb_spec t "") as [->|Hne]; cbn [negb].
    + split; [reflexivity|]. split.
      * intros k. case_bool_decide as Hk; [|reflexivity].
        destruct Hk as [Hk Hk']. congruence.
      * reflexivity.
    + cbn [conversations tokenStore]. split; [reflexivity|]. split.
      * intros k. case_bool_decide as Hk.
        -- destruct Hk as [Hk _]. injection Hk as ->. apply lookup_delete_eq.
        -- rewrite lookup_delete_ne; [reflexivity|].
           intros ->. apply Hk. split; [reflexivity|assumption].
      * intros [Hnone | (t' & Ht' & Hlook)].
        -- subst authorization. discriminate Hb.
        -- injection Ht' as <-. rewrite delete_id by assumption.
           destruct st; reflexivity.
  - split; [reflexivity|]. split; [|reflexivity].
    intros k. case_bool_decide as Hk; [|reflexivity].
    destruct Hk as [Hk _]. discriminate Hk.
Qed.

(** ** Create *)

Lemma or_else_present (s d : string) : s <> "" -> JS.or_else (Some s) d = s.
Proof.
  intros Hs. unfold JS.or_else.
  destruct (String.eqb_spec s ""); [contradiction|reflexivity].
Qed.

Lemma num_or_present (n d : Z) : n <> 0 -> JS.num_or (Some n) d = n.
Proof.
  intros Hn. unfold JS.num_or.
  destruct (Z.eqb_spec n 0); [contradiction|reflexivity].
Qed.

(** A title, a customer name and a score that the body supplies and that
    are not falsy are kept. *)
Lemma create_keeps_supplied (body : Body.t) (r now title customerName : string)
    (aiScore : Z) :
  Body.title body = Some title -> title <> "" ->
  Body.customerName body = Some customerName -> customerName <> "" ->
  Body.aiScore body = Some aiScore -> aiScore <> 0 ->
  let c := newConversation body r now in
  Conversation.title c = title /\
  Conversation.customerName c = customerName /\
  Conversation.aiScore c = aiScore.
Proof.
  intros Ht Ht' Hc Hc' Hs Hs'. cbn zeta. unfold newConversation.
  cbn [Conversation.title Conversation.customerName Conversation.aiScore].
  rewrite Ht, Hc, Hs.
  rewrite !or_else_present, num_or_present by assumption. repeat split.
Qed.

(** C7: a create request answers 201 with the new record and puts it in
    front of the collection; the record's [id] and [createdAt] are the
    generated ones whatever the body holds; each field missing from the
    body gets its default; the empty body gives sentiment "neutral",
    status "pending" and aiScore 50. *)
Theorem create_defaults (st : state) (body : Body.t) (r now : string) :
  let c := newConversation body r now in
  post_conversations st body r now =
    (mkResponse 201 (One c), mkState (c :: conversations st) (tokenStore st)) /\
  Conversation.id c = generateId r /\
  Conversation.createdAt c = now /\
  (Body.title body = None -> Conversation.title c = "New Conversation") /\
  (Body.customerName body = None -> Conversation.customerName c = "Unknown Customer") /\
  (Body.agentName body = None -> Conversation.agentName c = "Unassigned") /\
  (Body.agentId body = None -> Conversation.agentId c = None) /\
  (Body.sentiment body = None -> Conversation.sentiment c = "neutral") /\
  (Body.status body = None -> Conversation.status c = "pending") /\
  (Body.aiScore body = None -> Conversation.aiScore c = 50) /\
  (Body.duration body = None -> Conversation.duration c = 0) /\
  (Body.messages body = None -> Conversation.messages c = []) /\
  (body = Body.empty ->
   c = Conversation.mk (generateId r) "New Conversation" "Unknown Customer" "Unassigned"
         None "neutral" "pending" 50 0 now []).
Proof.
  cbn zeta. unfold post_conversations, newConversation.
  cbn [Conversation.id Conversation.createdAt Conversation.title
       Conversation.customerName Conversation.agentName Conversation.agentId
       Conversation.sentiment Conversation.status Conversation.aiScore
       Conversation.duration Conversation.messages].
  repeat split; try (intros ->; reflexivity).
Qed.

Lemma create_defaults_witness :
  Conversation.id (newConversation sample_body "k3j9x2a" "2024-02-01T08:00:00.000Z")
    = "conv-k3j9x2a" /\
  Conversation.createdAt (newConversation sample_body "k3j9x2a" "2024-02-01T08:00:00.000Z")
    = "2024-02-01T08:00:00.000Z" /\
  Conversation.title (newConversation sample_body "k3j9x2a" "2024-02-01T08:00:00.000Z")
    = "New Conversation" /\
  Conversation.aiScore (newConversation sample_body "k3j9x2a" "2024-02-01T08:00:00.000Z")
    = 50 /\
  fst (post_conversations initial_state Body.empty "k3j9x2a" "2024-02-01T08:00:00.000Z") =
    mkResponse 201
      (One (Conversation.mk "conv-k3j9x2a" "New Conversation" "Unknown Customer"
              "Unassigned" None "neutral" "pending" 50 0 "2024-02-01T08:00:00.000Z" [])).
Proof.
  pose proof (create_defaults initial_state sample_body "k3j9x2a"
                "2024-02-01T08:00:00.000Z") as H.
  pose proof (create_defaults initial_state Body.empty "k3j9x2a"
                "2024-02-01T08:00:00.000Z") as H0.
  cbn zeta in H, H0.
  destruct H as (_ & Hid & Hat & Htitle & _ & _ & _ & _ & _ & Hscore & _).
  destruct H0 as (Hpost & _ & _ & _ & _ & _ & _ & _ & _ & _ & _ & _ & Hempty).
  split; [exact Hid|]. split; [exact Hat|].
  split; [apply Htitle; reflexivity|].
  split; [apply Hscore; reflexivity|].
  rewrite Hpost. cbn [fst]. rewrite (Hempty eq_refl). reflexivity.
Defined.

(** C9: the defaults of a create request apply to falsy values, not only
    to missing ones: an aiScore of 0 becomes 50, an empty title becomes
    "New Conversation", an empty customerName "Unknown Customer"; so do
    the other text fields, and an empty agentId becomes [null]. *)
Theorem create_defaults_on_falsy (body : Body.t) (r now : string) :
  let c := newConversation body r now in
  (Body.aiScore body = Some 0 -> Conversation.aiScore c = 50) /\
  (Body.title body = Some "" -> Conversation.title c = "New Conversation") /\
  (Body.customerName body = Some "" -> Conversation.customerName c = "Unknown Customer") /\
  (Body.agentName body = Some "" -> Conversation.agentName c = "Unassigned") /\
  (Body.sentiment body = Some "" -> Conversation.sentiment c = "neutral") /\
  (Body.status body = Some "" -> Conversation.status c = "pending") /\
  (Body.agentId body = Some (Some "") -> Conversation.agentId c = None).
Proof.
  cbn zeta. unfold newConversation.
  cbn [Conversation.title Conversation.customerName Conversation.agentName
       Conversation.agentId Conversation.sentiment Conversation.status
       Conversation.aiScore].
  repeat split; intros ->; reflexivity.
Qed.

Lemma create_defaults_on_falsy_witness :
  Conversation.aiScore (newConversation falsy_body "k3j9x2a" "2024-02-01T08:00:00.000Z") = 50 /\
  Conversation.title (newConversation falsy_body "k3j9x2a" "2024-02-01T08:00:00.000Z")
    = "New Conversation" /\
  Conversation.customerName (newConversation falsy_body "k3j9x2a" "2024-02-01T08:00:00.000Z")
    = "Unknown Customer".
Proof.
  pose proof (create_defaults_on_falsy falsy_body "k3j9x2a" "2024-02-01T08:00:00.000Z") as H.
  cbn zeta in H. destruct H as (Hscore & Htitle & Hname & _).
  split; [apply Hscore; reflexivity|].
  split; [apply Htitle; reflexivity|apply Hname; reflexivity].
Defined.

(** ** Update *)

Lemma findIndex_Some {A} (p : A -> bool) (l : list A) (i : nat) :
  JS.findIndex p l = Some i ->
  exists x, l !! i = Some x /\ p x = true /\
            forall j y, (j < i)%nat -> l !! j = Some y -> p y = false.
Proof.
  revert i. induction l as [|a l IH]; intros i; cbn [JS.findIndex].
  - discriminate.
  - destruct (p a) eqn:Hpa.
    + intros [= <-]. exists a. split; [reflexivity|]. split; [assumption|].
      intros j y Hj. lia.
    + destruct (JS.findIndex p l) as [k|] eqn:Hk; cbn; [|discriminate].
      intros [= <-]. destruct (IH k eq_refl) as (x & Hx & Hpx & Hfirst).
      exists x. split; [exact Hx|]. split; [exact Hpx|].
      intros [|j] y Hj; cbn.
      * intros [= <-]. exact Hpa.
      * apply Hfirst. lia.
Qed.

Lemma has_id_true (id : string) (c : Conversation.t) :
  has_id id c = true <-> Conversation.id c = id.
Proof. unfold has_id. apply String.eqb_eq. Qed.

(** An update of an id that no record has answers 404 and changes
    nothing. *)
Lemma update_not_found (st : state) (id : string) (body : Body.t) :
  (forall c, c ∈ conversations st -> Conversation.id c <> id) ->
  put_conversation st id body = (mkResponse 404 (Error "Conversation not found"), st).
Proof.
  intros Hno. unfold put_conversation.
  destruct (JS.findIndex (has_id id) (conversations st)) as [i|] eqn:Hfind; [|reflexivity].
  destruct (findIndex_Some _ _ _ Hfind) as (x & Hx & Hid & _).
  apply has_id_true in Hid. exfalso. apply (Hno x); [|exact Hid].
  apply list_elem_of_lookup. exists i. exact Hx.
Qed.

(** C2 (amended): an update of an existing record answers 200 with the
    shallow merge of the body onto the record and stores it in the
    record's place; every key of the body overwrites the record's key,
    [id] and [createdAt] included, and every key missing from the body
    keeps the record's value, for each of the eleven keys of a record
    ([id], [title], [customerName], [agentName], [agentId], [sentiment],
    [status], [aiScore], [duration], [createdAt], [messages]); the other
    records and the token store are unchanged. *)
Theorem update_shallow_merge (st : state) (id : string) (body : Body.t) (index : nat) :
  JS.findIndex (has_id id) (conversations st) = Some index ->
  exists old,
    conversations st !! index = Some old /\
    Conversation.id old = id /\
    put_conversation st id body =
      (mkResponse 200 (One (spread old body)),
       mkState (<[index := spread old body]> (conversations st)) (tokenStore st)) /\
    (forall v, Body.id body = Some v -> Conversation.id (spread old body) = v) /\
    (forall v, Body.createdAt body = Some v -> Conversation.createdAt (spread old body) = v) /\
    (Body.id body = None -> Conversation.id (spread old body) = id) /\
    (Body.createdAt body = None ->
     Conversation.createdAt (spread old body) = Conversation.createdAt old) /\
    (forall v, Body.title body = Some v -> Conversation.title (spread old body) = v) /\
    (forall v, Body.aiScore body = Some v -> Conversation.aiScore (spread old body) = v) /\
    (forall v, Body.customerName body = Some v -> Conversation.customerName (spread old body) = v) /\
    (forall v, Body.agentName body = Some v -> Conversation.agentName (spread old body) = v) /\
    (forall v, Body.agentId body = Some v -> Conversation.agentId (spread old body) = v) /\
    (forall v, Body.sentiment body = Some v -> Conversation.sentiment (spread old body) = v) /\
    (forall v, Body.status body = Some v -> Conversation.status (spread old body) = v) /\
    (forall v, Body.duration body = Some v -> Conversation.duration (spread old body) = v) /\
    (forall v, Body.messages body = Some v -> Conversation.messages (spread old body) = v) /\
    (Body.title body = None ->
     Conversation.title (spread old body) = Conversation.title old) /\
    (Body.customerName body = None ->
     Conversation.customerName (spread old body) = Conversation.customerName old) /\
    (Body.agentName body = None ->
     Conversation.agentName (spread old body) = Conversation.agentName old) /\
    (Body.agentId body = None ->
     Conversation.agentId (spread old body) = Conversation.agentId old) /\
    (Body.sentiment body = None ->
     Conversation.sentiment (spread old body) = Conversation.sentiment old) /\
    (Body.status body = None ->
     Conversation.status (spread old body) = Conversation.status old) /\
    (Body.aiScore body = None ->
     Conversation.aiScore (spread old body) = Conversation.aiScore old) /\
    (Body.duration body = None ->
     Conversation.duration (spread old body) = Conversation.duration old) /\
    (Body.messages body = None ->
     Conversation.messages (spread old body) = Conversation.messages old) /\
    (body = Body.empty -> spread old body = old) /\
    (forall j, j <> index ->
       conversations (snd (put_conversation st id body)) !! j = conversations st !! j).
Proof.
  intros Hfind.
  destruct (findIndex_Some _ _ _ Hfind) as (old & Hold & Hid & _).
  apply has_id_true in Hid.
  exists old. split; [exact Hold|]. split; [exact Hid|].
  assert (Hput : put_conversation st id body =
            (mkResponse 200 (One (spread old body)),
             mkState (<[index := spread old body]> (conversations st)) (tokenStore st))).
  { unfold put_conversation. rewrite Hfind.
    rewrite (list_lookup_total_correct _ _ _ Hold). reflexivity. }
  split; [exact Hput|].
  unfold spread;
    cbn [Conversation.id Conversation.title Conversation.customerName
         Conversation.agentName Conversation.agentId Conversation.sentiment
         Conversation.status Conversation.aiScore Conversation.duration
         Conversation.createdAt Conversation.messages].
  split; [intros v ->; reflexivity|].
  split; [intros v ->; reflexivity|].
  split; [intros ->; exact Hid|].
  split; [intros ->; reflexivity|].
  repeat (split; [intros v ->; reflexivity|]).
  repeat (split; [intros ->; reflexivity|]).
  split.
  - intros ->. destruct old; reflexivity.
  - intros j Hj. rewrite Hput. cbn [snd conversations].
    apply list_lookup_insert_ne. congruence.
Qed.

Lemma update_shallow_merge_witness :
  exists old,
    seed_conversations !! 0%nat = Some old /\
    Conversation.id old = "conv-001" /\
    Conversation.id (spread old rename_body) = "conv-999" /\
    Conversation.createdAt (spread old rename_body) = "1999-01-01T00:00:00Z".
Proof.
  destruct (update_shallow_merge initial_state "conv-001" rename_body 0 eq_refl)
    as (old & Hold & Hid & _ & Hnewid & Hnewat & _).
  exists old. split; [exact Hold|]. split; [exact Hid|].
  split; [apply Hnewid; reflexivity|apply Hnewat; reflexivity].
Defined.

(** The claim C2 as stated fails: on the seed store, an update of
    conv-001 whose body carries an [id] and a [createdAt] changes both
    fields of the record. *)
Lemma update_overwrites_id_and_createdAt :
  exists c st',
    put_conversation initial_state "conv-001" rename_body = (mkResponse 200 (One c), st') /\
    conversations initial_state !! 0%nat
      = Some (Conversation.mk "conv-001" "Müşteri Şikayeti - Kargo Gecikmesi" "Ahmet Yılmaz"
                "Ayşe Demir" (Some "agent-001") "negative" "resolved" 42 325
                "2024-01-15T09:30:00Z"
                [ [("role", "customer"); ("text", "Siparişim 5 gündür gelmedi!")];
                  [("role", "agent"); ("text", "Özür dilerim, hemen kontrol ediyorum.")] ]) /\
    conversations st' !! 0%nat = Some c /\
    Conversation.id c = "conv-999" /\
    Conversation.id c <> "conv-001" /\
    Conversation.createdAt c = "1999-01-01T00:00:00Z" /\
    Conversation.createdAt c <> "2024-01-15T09:30:00Z".
Proof.
  eexists. eexists. split; [vm_compute; reflexivity|].
  repeat split; try reflexivity; cbn; discriminate.
Qed.

(** ** Listing *)

Lemma List_filter_filter {A} (f g : A -> bool) (l : list A) :
  List.filter f (List.filter g l) = List.filter (fun x => g x && f x) l.
Proof.
  induction l as [|a l IH]; cbn; [reflexivity|].
  destruct (g a); cbn; [destruct (f a)|]; rewrite IH; reflexivity.
Qed.

Lemma List_filter_true {A} (l : list A) : List.filter (fun _ => true) l = l.
Proof. induction l as [|a l IH]; cbn; [|rewrite IH]; reflexivity. Qed.


Lemma List_filter_sublist {A} (f g : A -> bool) (l : list A) :
  (forall x, f x = true -> g x = true) ->
  List.filter f l `sublist_of` List.filter g l.
Proof.
  intros Hfg. induction l as [|a l IH]; cbn; [constructor|].
  destruct (f a) eqn:Hfa.
  - rewrite (Hfg a Hfa). constructor. exact IH.
  - destruct (g a); [constructor|]; exact IH.
Qed.


(** *** Rounding *)

Lemma pow_53_1024 : 2 ^ 53 < 2 ^ 1024.
Proof. apply Z.pow_lt_mono_r; lia. Qed.


(** An integer below 2^53 is a binary64 number. *)
Lemma round_pos_small (n : Z) : 0 <= n < 2 ^ 53 -> JS.round_pos n = n.
Proof.
  intros [H0 H]. unfold JS.round_pos.
  destruct (Z.leb_spec (Z.log2 n + 1 - 53) 0) as [_|Hk]; [reflexivity|].
  exfalso.
  assert (Z.log2 n < 53); [|lia].
  destruct (Z.eq_dec n 0) as [->|Hn]; [cbn; lia|].
  apply Z.log2_lt_pow2; lia.
Qed.


Lemma round64_small (z : Z) : Z.abs z < 2 ^ 53 -> JS.round64 z = JS.Int z.
Proof.
  intros H. unfold JS.round64.
  rewrite round_pos_small by lia.
  pose proof pow_53_1024.
  destruct (Z.leb_spec (2 ^ 1024) (Z.abs z)) as [?|_]; [lia|].
  destruct (Z.ltb_spec z 0); f_equal; lia.
Qed.


(** *** slice *)






Section ListingFacts.

Variable toLowerCase : string -> string.

Lemma filter_if_filter (param : option Query.value) (f : Conversation.t -> bool)
    (l : list Conversation.t) :
  filter_if param f l = List.filter (fun c => implb (Query.truthy param) (f c)) l.
Proof.
  unfold filter_if. destruct (Query.truthy param); cbn [implb].
  - reflexivity.
  - symmetry. apply List_filter_true.
Qed.


Lemma filtered_passes_all (q : Query.t) (cs : list Conversation.t) :
  filtered toLowerCase q cs = List.filter (passes_all toLowerCase q) cs.
Proof.
  unfold filtered. rewrite !filter_if_filter, !List_filter_filter. reflexivity.
Qed.

Lemma truthy_Some (o : option string) :
  JS.truthy o = true <-> exists s, o = Some s /\ s <> "".
Proof.
  unfold JS.truthy. destruct o as [s|].
  - destruct (String.eqb_spec s "") as [->|Hne]; cbn.
    + split; [discriminate|]. intros (s & [= <-] & Hs). contradiction.
    + split; [|reflexivity]. intros _. exists s. split; [reflexivity|assumption].
  - split; [discriminate|]. intros (s & Hs & _). discriminate.
Qed.

(** A switched-on filter, read on the fields of the record. *)
Lemma implb_truthy (o : option Query.value) (b : bool) :
  implb (Query.truthy o) b = true <->
  (forall v, o = Some v -> Query.truthy (Some v) = true -> b = true).
Proof.
  destruct o as [v|].
  - destruct (Query.truthy (Some v)) eqn:Ht; cbn [implb].
    + split.
      * intros -> ? _ _. reflexivity.
      * intros H. apply (H v); [reflexivity|exact Ht].
    + split; [|reflexivity]. intros _ w [= <-] Hw. congruence.
  - cbn. split; [|reflexivity]. intros _ v Hv. discriminate.
Qed.

Lemma implb_truthy_iff (o : option Query.value) (b : bool) (P : Query.value -> Prop) :
  (forall v, o = Some v -> (b = true <-> P v)) ->
  implb (Query.truthy o) b = true <->
  (forall v, o = Some v -> Query.truthy (Some v) = true -> P v).
Proof.
  intros H. rewrite implb_truthy. split.
  - intros Hb v Hv Ht. apply (H v Hv). apply (Hb v); assumption.
  - intros HP v Hv Ht. apply (H v Hv). apply HP; assumption.
Qed.

Lemma truthy_Str (s : string) : Query.truthy (Some (Query.Str s)) = true <-> s <> "".
Proof.
  cbn. destruct (String.eqb_spec s "") as [->|Hne]; cbn.
  - split; [discriminate|]. intros H. contradiction.
  - split; [intros _; assumption|reflexivity].
Qed.

Lemma query_strict_eq_true (x : option string) (v : Query.value) :
  Query.strict_eq x (Some v) = true <-> exists s, x = Some s /\ v = Query.Str s.
Proof.
  unfold Query.strict_eq. destruct x as [a|]; [destruct v as [b| |]|].
  - rewrite String.eqb_eq. split.
    + intros ->. exists b. split; reflexivity.
    + intros (s & [= ->] & [= ->]). reflexivity.
  - split; [discriminate|]. intros (s & _ & Hs). discriminate.
  - split; [discriminate|]. intros (s & _ & Hs). discriminate.
  - split; [discriminate|]. intros (s & Hs & _). discriminate.
Qed.

Lemma and_iff (A B C D : Prop) : (A <-> B) -> (C <-> D) -> (A /\ C <-> B /\ D).
Proof. tauto. Qed.


Lemma ge_true (a : Z) (b : JS.num) :
  JS.ge a b = true <-> (exists n, b = JS.Int n /\ n <= a) \/ b = JS.Inf true.
Proof.
  unfold JS.ge. destruct b as [|[|]|n].
  - split; [discriminate|]. intros [(m & Hm & _)|Hm]; discriminate.
  - split; [intros _; right; reflexivity|reflexivity].
  - split; [discriminate|]. intros [(m & Hm & _)|Hm]; discriminate.
  - rewrite Z.leb_le. split.
    + intros H. left. exists n. split; [reflexivity|assumption].
    + intros [(m & [= <-] & H)|Hm]; [assumption|discriminate].
Qed.

Lemma le_true (a : Z) (b : JS.num) :
  JS.le a b = true <-> (exists n, b = JS.Int n /\ a <= n) \/ b = JS.Inf false.
Proof.
  unfold JS.le. destruct b as [|[|]|n].
  - split; [discriminate|]. intros [(m & Hm & _)|Hm]; discriminate.
  - split; [discriminate|]. intros [(m & Hm & _)|Hm]; discriminate.
  - split; [intros _; right; reflexivity|reflexivity].
  - rewrite Z.leb_le. split.
    + intros H. left. exists n. split; [reflexivity|assumption].
    + intros [(m & [= <-] & H)|Hm]; [assumption|discriminate].
Qed.

Lemma passes_all_drops (q' q : Query.t) (c : Conversation.t) :
  Query.drops q' q ->
  passes_all toLowerCase q c = true -> passes_all toLowerCase q' c = true.
Proof.
  intros (H1 & H2 & H3 & H4 & H5 & H6). unfold passes_all.
  rewrite !andb_true_iff.
  intros (P1 & P2 & P3 & P4 & P5 & P6).
  repeat split.
  - destruct H1 as [E|E]; [rewrite E; reflexivity|].
    unfold by_sentiment in *. rewrite E. exact P1.
  - destruct H2 as [E|E]; [rewrite E; reflexivity|].
    unfold by_status in *. rewrite E. exact P2.
  - destruct H3 as [E|E]; [rewrite E; reflexivity|].
    unfold by_agentId in *. rewrite E. exact P3.
  - destruct H4 as [E|E]; [rewrite E; reflexivity|].
    unfold by_search in *. rewrite E. exact P4.
  - destruct H5 as [E|E]; [rewrite E; reflexivity|].
    unfold by_minScore in *. rewrite E. exact P5.
  - destruct H6 as [E|E]; [rewrite E; reflexivity|].
    unfold by_maxScore in *. rewrite E. exact P6.
Qed.

End ListingFacts.

Section ListingProperties.

Variable toLowerCase : string -> string.

(** C8: the filters combine conjunctively.  When the handler does not
    throw on the search parameter, a record is in the filtered result
    exactly when it is in the store and satisfies the predicate of every
    filter the query supplies (a parameter that is truthy: present and
    not the empty string): the parameter is the string that is the
    sentiment, the status, the agentId of the record; the search term is
    inside the title or the customer name whatever the case; aiScore is
    at least the number read from minScore and at most the one read from
    maxScore.  And removing filters from a query never shrinks the
    result: the result of the query is a subsequence of the result of the
    query with filters removed. *)
Theorem filters_conjunctive (cs : list Conversation.t) (q : Query.t) :
  search_throws q = false ->
  (forall c,
     c ∈ filtered toLowerCase q cs <->
     c ∈ cs /\
     (forall v, Query.sentiment q = Some v -> Query.truthy (Some v) = true ->
        v = Query.Str (Conversation.sentiment c)) /\
     (forall v, Query.status q = Some v -> Query.truthy (Some v) = true ->
        v = Query.Str (Conversation.status c)) /\
     (forall v, Query.agentId q = Some v -> Query.truthy (Some v) = true ->
        exists s, Conversation.agentId c = Some s /\ v = Query.Str s) /\
     (forall s, Query.search q = Some (Query.Str s) -> s <> "" ->
        JS.includes (toLowerCase (Conversation.title c)) (toLowerCase s) = true \/
        JS.includes (toLowerCase (Conversation.customerName c)) (toLowerCase s) = true) /\
     (forall v, Query.minScore q = Some v -> Query.truthy (Some v) = true ->
        (exists n, JS.parseInt (Query.text v) = JS.Int n /\ n <= Conversation.aiScore c) \/
        JS.parseInt (Query.text v) = JS.Inf true) /\
     (forall v, Query.maxScore q = Some v -> Query.truthy (Some v) = true ->
        (exists n, JS.parseInt (Query.text v) = JS.Int n /\ Conversation.aiScore c <= n) \/
        JS.parseInt (Query.text v) = JS.Inf false)) /\
  (forall q', Query.drops q' q ->
     filtered toLowerCase q cs `sublist_of` filtered toLowerCase q' cs).
Proof.
  intros Hsearch. split.
  - intros c. rewrite filtered_passes_all, list_elem_of_In, filter_In, <- list_elem_of_In.
    apply and_iff_compat_l. unfold passes_all. rewrite !andb_true_iff.
    unfold by_sentiment, by_status, by_agentId, by_minScore, by_maxScore.
    repeat apply and_iff.
    + apply implb_truthy_iff. intros v Hv. rewrite Hv, query_strict_eq_true. split.
      * intros (t & [= <-] & ->). reflexivity.
      * intros ->. eexists. split; reflexivity.
    + apply implb_truthy_iff. intros v Hv. rewrite Hv, query_strict_eq_true. split.
      * intros (t & [= <-] & ->). reflexivity.
      * intros ->. eexists. split; reflexivity.
    + apply implb_truthy_iff. intros v Hv. rewrite Hv. apply query_strict_eq_true.
    + unfold search_throws in Hsearch. unfold by_search.
      destruct (Query.search q) as [[s| |]|]; try discriminate.
      * destruct (Query.truthy (Some (Query.Str s))) eqn:Ht; cbn [implb].
        -- rewrite orb_true_iff. split.
           ++ intros H t [= <-] _. exact H.
           ++ intros H. apply (H s); [reflexivity|]. apply truthy_Str. exact Ht.
        -- split; [|reflexivity]. intros _ t [= <-] Hne.
           apply truthy_Str in Hne. congruence.
      * cbn. split; [|reflexivity]. intros _ t Ht. discriminate.
    + apply implb_truthy_iff. intros v Hv. rewrite Hv. cbn [Query.ToString]. apply ge_true.
    + apply implb_truthy_iff. intros v Hv. rewrite Hv. cbn [Query.ToString]. apply le_true.
  - intros q' Hdrops. rewrite !filtered_passes_all.
    apply List_filter_sublist. intros c. apply passes_all_drops. exact Hdrops.
Qed.














End ListingProperties.

(** ** Token rotation *)

Lemma generateToken_not_inherited (r : string) :
  generateToken r ∉ Object_prototype_keys.
Proof.
  unfold generateToken, Object_prototype_keys. cbn [String.append].
  intros H. repeat (apply elem_of_cons in H as [H|H]; [discriminate H|]).
  inversion H.
Qed.

Lemma refreshToken_not_inherited (r : string) :
  "ref-" ++ generateToken r ∉ Object_prototype_keys.
Proof.
  unfold generateToken, Object_prototype_keys. cbn [String.append].
  intros H. repeat (apply elem_of_cons in H as [H|H]; [discriminate H|]).
  inversion H.
Qed.

Lemma access_is_not_refresh (r1 r2 : string) :
  generateToken r1 <> "ref-" ++ generateToken r2.
Proof. unfold generateToken. cbn [String.append]. discriminate. Qed.

Lemma tokenStore_get_own (ts : gmap string principal) (k : string) (p : principal) :
  ts !! k = Some p -> tokenStore_get ts k = Some p.
Proof. intros H. unfold tokenStore_get. rewrite H. reflexivity. Qed.

Lemma tokenStore_get_missing (ts : gmap string principal) (k : string) :
  ts !! k = None -> k ∉ Object_prototype_keys -> tokenStore_get ts k = None.
Proof.
  intros H Hk. unfold tokenStore_get. rewrite H.
  case_bool_decide; [contradiction|reflexivity].
Qed.

(** After a login the two issued tokens resolve to the user. *)
Lemma login_issues_pair (st : state) (email password : option string) (r1 r2 : string)
    (u : User.t) :
  authenticate email password = Some u ->
  post_auth_login st email password r1 r2 =
    (mkResponse 200 (Session (generateToken r1) ("ref-" ++ generateToken r2)
                       (view (Account u))),
     mkState (conversations st)
       (<["ref-" ++ generateToken r2 := Account u]>
          (<[generateToken r1 := Account u]> (tokenStore st)))).
Proof. intros H. unfold post_auth_login. rewrite H. reflexivity. Qed.

(** C4 (amended): after a login issued the pair (access, refresh), a
    refresh that presents either token of the pair answers 200 with two
    new tokens, both bound to the same user, and removes the presented
    token from the store: provided the new tokens differ from it,
    resolving it fails afterwards.  The token of the pair that was not
    presented is left in the store and still resolves to the user. *)
Theorem refresh_rotates_presented_token
    (st : state) (email password : option string) (r1 r2 : string) (u : User.t)
    (refreshToken authorization : option string) (r3 r4 : string)
    (used other : string) :
  authenticate email password = Some u ->
  (used = generateToken r1 /\ other = "ref-" ++ generateToken r2) \/
  (used = "ref-" ++ generateToken r2 /\ other = generateToken r1) ->
  tokenToVerify refreshToken authorization = Some used ->
  generateToken r3 <> used ->
  "ref-" ++ generateToken r4 <> used ->
  let st1 := snd (post_auth_login st email password r1 r2) in
  let st2 := snd (post_auth_refresh st1 refreshToken authorization r3 r4) in
  fst (post_auth_refresh st1 refreshToken authorization r3 r4) =
    mkResponse 200 (Session (generateToken r3) ("ref-" ++ generateToken r4)
                      (view (Account u))) /\
  tokenStore_get (tokenStore st2) used = None /\
  tokenStore_get (tokenStore st2) other = Some (Account u) /\
  tokenStore_get (tokenStore st2) (generateToken r3) = Some (Account u) /\
  tokenStore_get (tokenStore st2) ("ref-" ++ generateToken r4) = Some (Account u).
Proof.
  intros Hauth Hpair Hused Hnew3 Hnew4 st1 st2.
  subst st2 st1. rewrite (login_issues_pair st _ _ r1 r2 u Hauth). cbn [snd].
  set (access := generateToken r1) in *.
  set (refresh := "ref-" ++ generateToken r2) in *.
  assert (Hdiff : access <> refresh) by apply access_is_not_refresh.
  assert (Hne : used <> other) by (destruct Hpair as [[-> ->]|[-> ->]]; congruence).
  assert (Hu : used ∉ Object_prototype_keys).
  { destruct Hpair as [[-> _]|[-> _]];
      [apply generateToken_not_inherited|apply refreshToken_not_inherited]. }
  set (ts1 := <[refresh := Account u]> (<[access := Account u]> (tokenStore st))).
  assert (H1 : ts1 !! used = Some (Account u)).
  { subst ts1. destruct Hpair as [[-> _]|[-> _]].
    - rewrite lookup_insert_ne by congruence. apply lookup_insert_eq.
    - apply lookup_insert_eq. }
  assert (H2 : ts1 !! other = Some (Account u)).
  { subst ts1. destruct Hpair as [[_ ->]|[_ ->]].
    - apply lookup_insert_eq.
    - rewrite lookup_insert_ne by congruence. apply lookup_insert_eq. }
  unfold post_auth_refresh. rewrite Hused. cbn [JS.ToString tokenStore].
  rewrite (tokenStore_get_own _ _ _ H1). cbn [fst snd tokenStore].
  split; [reflexivity|].
  split.
  { apply tokenStore_get_missing; [|exact Hu].
    rewrite !lookup_insert_ne by congruence. apply lookup_delete_eq. }
  split.
  { apply tokenStore_get_own.
    destruct (decide ("ref-" ++ generateToken r4 = other)) as [->|Hn4];
      [apply lookup_insert_eq|rewrite lookup_insert_ne by exact Hn4].
    destruct (decide (generateToken r3 = other)) as [->|Hn3];
      [apply lookup_insert_eq|rewrite lookup_insert_ne by exact Hn3].
    rewrite lookup_delete_ne by exact Hne. exact H2. }
  split.
  { apply tokenStore_get_own.
    rewrite lookup_insert_ne by (symmetry; apply access_is_not_refresh).
    apply lookup_insert_eq. }
  apply tokenStore_get_own. apply lookup_insert_eq.
Qed.

(** ** The properties on the seed data *)

Lemma logout_never_fails_witness :
  fst (post_auth_logout initial_state (Some "token-unknown")) = mkResponse 200 Success /\
  snd (post_auth_logout initial_state None) = initial_state /\
  snd (post_auth_logout initial_state (Some "Bearer token-unknown")) = initial_state.
Proof.
  split; [apply (logout_never_fails initial_state (Some "token-unknown"))|].
  split.
  - apply (logout_never_fails initial_state None). left. reflexivity.
  - apply (logout_never_fails initial_state (Some "Bearer token-unknown")).
    right. exists "token-unknown". split; reflexivity.
Defined.

Lemma filters_conjunctive_witness :
  search_throws positive_completed = false /\
  Query.drops positive_only positive_completed /\
  filtered ascii_toLowerCase positive_completed seed_conversations
    `sublist_of` filtered ascii_toLowerCase positive_only seed_conversations /\
  (forall c, c ∈ filtered ascii_toLowerCase positive_completed seed_conversations ->
     Conversation.sentiment c = "positive" /\ Conversation.status c = "completed").
Proof.
  assert (Hdrops : Query.drops positive_only positive_completed).
  { unfold Query.drops. cbn. repeat split; auto. }
  destruct (filters_conjunctive ascii_toLowerCase seed_conversations positive_completed
              eq_refl) as [Hiff Hmono].
  split; [reflexivity|].
  split; [exact Hdrops|]. split; [exact (Hmono positive_only Hdrops)|].
  intros c Hc. apply Hiff in Hc as (_ & Hsent & Hstat & _). split.
  - specialize (Hsent (Query.Str "positive") eq_refl eq_refl). congruence.
  - specialize (Hstat (Query.Str "completed") eq_refl eq_refl). congruence.
Defined.







(** The scenario of the specification: [?page=1&limit=2] on the five seed
    records. *)
Example listing_page_1_limit_2 :
  fst (get_conversations ascii_toLowerCase initial_state (paged "1" "2"))
  = mkResponse 200
      (Listing (take 2 seed_conversations) (mkPagination 5 (JS.Int 1) (JS.Int 2) (JS.Int 3))).
Proof. reflexivity. Qed.

Lemma refresh_rotates_presented_token_witness :
  authenticate (Some "admin@crestastream.com") (Some "admin123") = Some admin /\
  tokenToVerify (Some "ref-token-d4e5f6") None = Some "ref-token-d4e5f6" /\
  let st1 := snd (post_auth_login initial_state (Some "admin@crestastream.com")
                    (Some "admin123") "a1b2c3" "d4e5f6") in
  let st2 := snd (post_auth_refresh st1 (Some "ref-token-d4e5f6") None
                    "g7h8i9" "j0k1l2") in
  fst (post_auth_refresh st1 (Some "ref-token-d4e5f6") None "g7h8i9" "j0k1l2") =
    mkResponse 200 (Session "token-g7h8i9" "ref-token-j0k1l2" (view (Account admin))) /\
  tokenStore_get (tokenStore st2) "ref-token-d4e5f6" = None /\
  tokenStore_get (tokenStore st2) "token-a1b2c3" = Some (Account admin) /\
  tokenStore_get (tokenStore st2) "token-g7h8i9" = Some (Account admin) /\
  tokenStore_get (tokenStore st2) "ref-token-j0k1l2" = Some (Account admin).
Proof.
  split; [reflexivity|]. split; [reflexivity|].
  apply (refresh_rotates_presented_token initial_state
           (Some "admin@crestastream.com") (Some "admin123") "a1b2c3" "d4e5f6" admin
           (Some "ref-token-d4e5f6") None "g7h8i9" "j0k1l2"
           "ref-token-d4e5f6" "token-a1b2c3").
  - reflexivity.
  - right. split; reflexivity.
  - reflexivity.
  - discriminate.
  - discriminate.
Defined.

(** The claim C4 as stated fails: after a login and a refresh with the
    refresh token of the pair, the access token of the pair still
    resolves to the user. *)
Lemma refresh_keeps_the_other_token :
  let st1 := snd (post_auth_login initial_state (Some "admin@crestastream.com")
                    (Some "admin123") "a1b2c3" "d4e5f6") in
  let st2 := snd (post_auth_refresh st1 (Some "ref-token-d4e5f6") None
                    "g7h8i9" "j0k1l2") in
  fst (post_auth_login initial_state (Some "admin@crestastream.com")
         (Some "admin123") "a1b2c3" "d4e5f6")
    = mkResponse 200 (Session "token-a1b2c3" "ref-token-d4e5f6"
                        (mkView (Some "admin@crestastream.com") (Some "Admin User")
                           (Some "admin"))) /\
  code (fst (post_auth_refresh st1 (Some "ref-token-d4e5f6") None "g7h8i9" "j0k1l2")) = 200 /\
  tokenStore_get (tokenStore st2) "token-a1b2c3" = Some (Account admin) /\
  tokenStore_get (tokenStore st2) "token-a1b2c3" <> None.
Proof.
  cbn zeta. split; [reflexivity|]. split; [vm_compute; reflexivity|].
  split; [vm_compute; reflexivity|]. vm_compute. discriminate.
Qed.

(** ** The token store never binds the empty string *)

Lemma no_empty_key_initial : no_empty_key initial_state.
Proof. reflexivity. Qed.

Lemma no_empty_key_login st email password r1 r2 :
  no_empty_key st -> no_empty_key (snd (post_auth_login st email password r1 r2)).
Proof.
  unfold no_empty_key, post_auth_login. intros H.
  destruct (authenticate email password); cbn [snd tokenStore]; [|exact H].
  rewrite !lookup_insert_ne; [exact H| |]; unfold generateToken; discriminate.
Qed.

Lemma no_empty_key_refresh st refreshToken authorization r1 r2 :
  no_empty_key st ->
  no_empty_key (snd (post_auth_refresh st refreshToken authorization r1 r2)).
Proof.
  unfold no_empty_key, post_auth_refresh. intros H.
  destruct (tokenStore_get _ _); cbn [snd tokenStore]; [|exact H].
  rewrite !lookup_insert_ne; [| |]; try (unfold generateToken; discriminate).
  rewrite lookup_delete. case_decide; [reflexivity|exact H].
Qed.

Lemma no_empty_key_logout st authorization :
  no_empty_key st -> no_empty_key (snd (post_auth_logout st authorization)).
Proof.
  unfold no_empty_key, post_auth_logout. intros H. cbn [snd].
  destruct (JS.truthy _); cbn [tokenStore]; [|exact H].
  rewrite lookup_delete. case_decide; [reflexivity|exact H].
Qed.

(** * Further properties of the server *)

(** ** Finding a record *)

Lemma not_in_ids (id : string) (cs : list Conversation.t) :
  id ∉ ids cs <-> forall c, c ∈ cs -> has_id id c = false.
Proof.
  unfold ids. split.
  - intros Hno c Hc. destruct (has_id id c) eqn:E; [|reflexivity].
    apply has_id_true in E. exfalso. apply Hno.
    apply list_elem_of_fmap. exists c. split; [symmetry; exact E|exact Hc].
  - intros Hall Hin. apply list_elem_of_fmap in Hin as (c & -> & Hc).
    specialize (Hall c Hc). unfold has_id in Hall.
    rewrite String.eqb_refl in Hall. discriminate.
Qed.

Lemma findIndex_absent {A} (p : A -> bool) (l : list A) :
  (forall x, x ∈ l -> p x = false) -> JS.findIndex p l = None.
Proof.
  induction l as [|a l IH]; intros H; cbn [JS.findIndex]; [reflexivity|].
  rewrite (H a) by (apply list_elem_of_here).
  rewrite IH; [reflexivity|]. intros x Hx. apply H. apply list_elem_of_further, Hx.
Qed.

Lemma findIndex_first {A} (p : A -> bool) (l1 l2 : list A) (x : A) :
  (forall y, y ∈ l1 -> p y = false) -> p x = true ->
  JS.findIndex p (l1 ++ x :: l2)%list = Some (length l1).
Proof.
  induction l1 as [|a l1 IH]; intros H Hx; cbn [JS.findIndex app length].
  - rewrite Hx. reflexivity.
  - rewrite (H a) by (apply list_elem_of_here).
    rewrite IH; [reflexivity| |exact Hx].
    intros y Hy. apply H. apply list_elem_of_further, Hy.
Qed.

Lemma find_absent {A} (p : A -> bool) (l : list A) :
  (forall x, x ∈ l -> p x = false) -> List.find p l = None.
Proof.
  induction l as [|a l IH]; intros H; cbn [List.find]; [reflexivity|].
  rewrite (H a) by (apply list_elem_of_here).
  apply IH. intros x Hx. apply H. apply list_elem_of_further, Hx.
Qed.

Lemma find_first {A} (p : A -> bool) (l1 l2 : list A) (x : A) :
  (forall y, y ∈ l1 -> p y = false) -> p x = true ->
  List.find p (l1 ++ x :: l2)%list = Some x.
Proof.
  induction l1 as [|a l1 IH]; intros H Hx; cbn [List.find app].
  - rewrite Hx. reflexivity.
  - rewrite (H a) by (apply list_elem_of_here).
    apply IH; [|exact Hx]. intros y Hy. apply H. apply list_elem_of_further, Hy.
Qed.

(** A store that holds the id splits at the first record with it. *)
Lemma split_at_first_id (id : string) (cs : list Conversation.t) :
  id ∈ ids cs ->
  exists l1 c l2, cs = (l1 ++ c :: l2)%list /\ Conversation.id c = id /\ id ∉ ids l1.
Proof.
  induction cs as [|a cs IH]; intros Hin.
  - inversion Hin.
  - destruct (String.eqb_spec (Conversation.id a) id) as [E|E].
    + exists [], a, cs. split; [reflexivity|]. split; [exact E|]. intros H. inversion H.
    + unfold ids in Hin. cbn [map] in Hin.
      apply elem_of_cons in Hin as [Hin|Hin]; [congruence|].
      destruct (IH Hin) as (l1 & c & l2 & -> & Hc & Hl1).
      exists (a :: l1), c, l2. split; [reflexivity|]. split; [exact Hc|].
      unfold ids. cbn [map]. intros H.
      apply elem_of_cons in H as [H|H]; [congruence|]. exact (Hl1 H).
Qed.

Lemma lookup_total_middle (l1 l2 : list Conversation.t) (c : Conversation.t) :
  (l1 ++ c :: l2)%list !!! length l1 = c.
Proof. apply list_lookup_total_correct. apply list_lookup_middle. reflexivity. Qed.

Lemma insert_middle_at (l1 l2 : list Conversation.t) (c c' : Conversation.t) :
  <[length l1 := c']> (l1 ++ c :: l2)%list = (l1 ++ c' :: l2)%list.
Proof.
  replace (length l1) with (length l1 + 0)%nat by lia.
  rewrite insert_app_r. reflexivity.
Qed.

Lemma delete_middle_at (l1 l2 : list Conversation.t) (c : Conversation.t) :
  delete (length l1) (l1 ++ c :: l2)%list = (l1 ++ l2)%list.
Proof. apply delete_middle. Qed.

Lemma ids_app (l1 l2 : list Conversation.t) : ids (l1 ++ l2) = (ids l1 ++ ids l2)%list.
Proof. unfold ids. apply map_app. Qed.

Lemma findIndex_at_split (id : string) (l1 l2 : list Conversation.t) (c : Conversation.t) :
  Conversation.id c = id -> id ∉ ids l1 ->
  JS.findIndex (has_id id) (l1 ++ c :: l2)%list = Some (length l1).
Proof.
  intros Hc Hl1. apply findIndex_first.
  - apply not_in_ids. exact Hl1.
  - apply has_id_true. exact Hc.
Qed.

Lemma find_at_split (id : string) (l1 l2 : list Conversation.t) (c : Conversation.t) :
  Conversation.id c = id -> id ∉ ids l1 ->
  List.find (has_id id) (l1 ++ c :: l2)%list = Some c.
Proof.
  intros Hc Hl1. apply find_first.
  - apply not_in_ids. exact Hl1.
  - apply has_id_true. exact Hc.
Qed.

Lemma get_missing (st : state) (id : string) :
  id ∉ ids (conversations st) ->
  get_conversation st id = (mkResponse 404 (Error "Conversation not found"), st).
Proof.
  intros H. unfold get_conversation.
  rewrite find_absent; [reflexivity|]. apply not_in_ids. exact H.
Qed.

Lemma get_at_split (st : state) (id : string) (l1 l2 : list Conversation.t)
    (c : Conversation.t) :
  conversations st = (l1 ++ c :: l2)%list -> Conversation.id c = id -> id ∉ ids l1 ->
  get_conversation st id = (mkResponse 200 (One c), st).
Proof.
  intros Hcs Hc Hl1. unfold get_conversation.
  rewrite Hcs, (find_at_split id l1 l2 c Hc Hl1). reflexivity.
Qed.

Lemma put_at_split (st : state) (id : string) (body : Body.t)
    (l1 l2 : list Conversation.t) (c : Conversation.t) :
  conversations st = (l1 ++ c :: l2)%list -> Conversation.id c = id -> id ∉ ids l1 ->
  put_conversation st id body =
    (mkResponse 200 (One (spread c body)),
     mkState (l1 ++ spread c body :: l2) (tokenStore st)).
Proof.
  intros Hcs Hc Hl1. unfold put_conversation.
  rewrite Hcs, (findIndex_at_split id l1 l2 c Hc Hl1).
  rewrite lookup_total_middle, insert_middle_at. reflexivity.
Qed.

Lemma put_missing (st : state) (id : string) (body : Body.t) :
  id ∉ ids (conversations st) ->
  put_conversation st id body = (mkResponse 404 (Error "Conversation not found"), st).
Proof.
  intros H. unfold put_conversation.
  rewrite findIndex_absent; [reflexivity|]. apply not_in_ids. exact H.
Qed.

Lemma delete_missing (st : state) (id : string) :
  id ∉ ids (conversations st) ->
  delete_conversation st id = (mkResponse 404 (Error "Conversation not found"), st).
Proof.
  intros H. unfold delete_conversation.
  rewrite findIndex_absent; [reflexivity|]. apply not_in_ids. exact H.
Qed.

Lemma delete_at_split (st : state) (id : string) (l1 l2 : list Conversation.t)
    (c : Conversation.t) :
  conversations st = (l1 ++ c :: l2)%list -> Conversation.id c = id -> id ∉ ids l1 ->
  delete_conversation st id =
    (mkResponse 200 Success, mkState (l1 ++ l2) (tokenStore st)).
Proof.
  intros Hcs Hc Hl1. unfold delete_conversation.
  rewrite Hcs, (findIndex_at_split id l1 l2 c Hc Hl1), delete_middle_at. reflexivity.
Qed.

Lemma message_at_split (st : state) (id : string) (role text : option string)
    (now : string) (l1 l2 : list Conversation.t) (c : Conversation.t) :
  conversations st = (l1 ++ c :: l2)%list -> Conversation.id c = id -> id ∉ ids l1 ->
  post_conversation_messages st id role text now =
    (mkResponse 200 (One (push_message c (newMessage role text now))),
     mkState (l1 ++ push_message c (newMessage role text now) :: l2) (tokenStore st)).
Proof.
  intros Hcs Hc Hl1. unfold post_conversation_messages.
  rewrite Hcs, (findIndex_at_split id l1 l2 c Hc Hl1).
  rewrite lookup_total_middle, insert_middle_at. reflexivity.
Qed.

Lemma message_missing (st : state) (id : string) (role text : option string)
    (now : string) :
  id ∉ ids (conversations st) ->
  post_conversation_messages st id role text now =
    (mkResponse 404 (Error "Conversation not found"), st).
Proof.
  intros H. unfold post_conversation_messages.
  rewrite findIndex_absent; [reflexivity|]. apply not_in_ids. exact H.
Qed.

Lemma spread_keeps_id (c : Conversation.t) (body : Body.t) :
  Body.id body = None -> Conversation.id (spread c body) = Conversation.id c.
Proof. intros H. unfold spread. cbn. rewrite H. reflexivity. Qed.

Lemma spread_idempotent (c : Conversation.t) (body : Body.t) :
  spread (spread c body) body = spread c body.
Proof.
  unfold spread. cbn. f_equal.
  all: match goal with |- default _ ?o = _ => destruct o; reflexivity end.
Qed.

(** ** Reading back what was written *)

(** X1: a GET of the id that a create returned, made right after the
    create, answers 200 with the record the create returned, also when an
    older record has the same id: the new record is first in the store
    and the lookup takes the first match. *)
Theorem create_then_get (st : state) (body : Body.t) (r now : string) :
  get_conversation (snd (post_conversations st body r now)) (generateId r)
  = (mkResponse 200 (One (newConversation body r now)),
     snd (post_conversations st body r now)) /\
  fst (get_conversation (snd (post_conversations st body r now)) (generateId r))
  = mkResponse 200 (json (fst (post_conversations st body r now))).
Proof.
  assert (Hid : has_id (generateId r) (newConversation body r now) = true)
    by (apply has_id_true; reflexivity).
  unfold post_conversations, get_conversation. cbn [snd fst conversations List.find json].
  rewrite Hid. split; reflexivity.
Qed.

(** X2: a GET by id never changes the state; it answers 404
    "Conversation not found" exactly when no record has the id, and
    otherwise 200 with a record of the store that has it. *)
Theorem get_by_id (st : state) (id : string) :
  snd (get_conversation st id) = st /\
  (id ∉ ids (conversations st) <->
   fst (get_conversation st id) = mkResponse 404 (Error "Conversation not found")) /\
  (id ∈ ids (conversations st) <->
   exists c, fst (get_conversation st id) = mkResponse 200 (One c) /\
             c ∈ conversations st /\ Conversation.id c = id).
Proof.
  destruct (decide (id ∈ ids (conversations st))) as [Hin|Hout].
  - destruct (split_at_first_id id _ Hin) as (l1 & c & l2 & Hcs & Hc & Hl1).
    rewrite (get_at_split st id l1 l2 c Hcs Hc Hl1). cbn [fst snd].
    split; [reflexivity|]. split.
    + split; [contradiction|discriminate].
    + split; [|intros _; exact Hin]. intros _. exists c.
      split; [reflexivity|]. split; [|exact Hc].
      rewrite Hcs. apply elem_of_app. right. apply list_elem_of_here.
  - rewrite (get_missing st id Hout). cbn [fst snd].
    split; [reflexivity|]. split.
    + split; [reflexivity|intros _; exact Hout].
    + split; [contradiction|]. intros (c & Hc & _). discriminate Hc.
Qed.

(** X3: a DELETE of an id that no record has answers 404 and changes
    nothing; otherwise it answers 200 [{success: true}] and removes the
    first record with that id and no other: the records before and after
    it stay, in their order, and the token store is untouched. *)
Theorem delete_removes_first (st : state) (id : string) :
  (id ∉ ids (conversations st) ->
   delete_conversation st id = (mkResponse 404 (Error "Conversation not found"), st)) /\
  (forall l1 c l2,
     conversations st = (l1 ++ c :: l2)%list -> Conversation.id c = id -> id ∉ ids l1 ->
     delete_conversation st id =
       (mkResponse 200 Success, mkState (l1 ++ l2) (tokenStore st))).
Proof.
  split; [apply delete_missing|]. intros l1 c l2. apply delete_at_split.
Qed.

Lemma delete_removes_first_witness :
  delete_conversation initial_state "conv-000"
    = (mkResponse 404 (Error "Conversation not found"), initial_state) /\
  delete_conversation initial_state "conv-003"
    = (mkResponse 200 Success,
       mkState (take 2 seed_conversations ++ drop 3 seed_conversations) ∅).
Proof.
  destruct (delete_removes_first initial_state "conv-000") as [H404 _].
  destruct (delete_removes_first initial_state "conv-003") as [_ H200].
  split.
  - apply H404. vm_compute. intros H.
    repeat (apply elem_of_cons in H as [H|H]; [discriminate H|]). inversion H.
  - refine (H200 (take 2 seed_conversations) _ (drop 3 seed_conversations)
              eq_refl eq_refl _).
    vm_compute. intros H.
    repeat (apply elem_of_cons in H as [H|H]; [discriminate H|]). inversion H.
Defined.

(** X4: when the ids of the store are pairwise distinct, a DELETE of an
    id of the store answers 200, and afterwards a GET and a second DELETE
    of that id both answer 404. *)
Theorem delete_then_get (st : state) (id : string) :
  NoDup (ids (conversations st)) -> id ∈ ids (conversations st) ->
  fst (delete_conversation st id) = mkResponse 200 Success /\
  fst (get_conversation (snd (delete_conversation st id)) id)
    = mkResponse 404 (Error "Conversation not found") /\
  fst (delete_conversation (snd (delete_conversation st id)) id)
    = mkResponse 404 (Error "Conversation not found").
Proof.
  intros Hnodup Hin.
  destruct (split_at_first_id id _ Hin) as (l1 & c & l2 & Hcs & Hc & Hl1).
  rewrite (delete_at_split st id l1 l2 c Hcs Hc Hl1). cbn [fst snd].
  assert (Hgone : id ∉ ids (l1 ++ l2)).
  { rewrite Hcs, ids_app in Hnodup. unfold ids at 2 in Hnodup. cbn [map] in Hnodup.
    apply NoDup_app in Hnodup as (_ & _ & Hn2). apply NoDup_cons in Hn2 as (Hn2 & _).
    rewrite ids_app. intros H. apply elem_of_app in H as [H|H].
    - exact (Hl1 H).
    - apply Hn2. rewrite Hc. exact H. }
  split; [reflexivity|]. split.
  - rewrite get_missing; [reflexivity|exact Hgone].
  - rewrite delete_missing; [reflexivity|exact Hgone].
Qed.

Lemma delete_then_get_witness :
  NoDup (ids (conversations initial_state)) /\
  "conv-002" ∈ ids (conversations initial_state) /\
  fst (get_conversation (snd (delete_conversation initial_state "conv-002")) "conv-002")
    = mkResponse 404 (Error "Conversation not found").
Proof.
  assert (Hnd : NoDup (ids (conversations initial_state))).
  { vm_compute. repeat (apply NoDup_cons; split;
      [intros H; repeat (apply elem_of_cons in H as [H|H]; [discriminate H|]); inversion H|]).
    apply NoDup_nil. exact I. }
  assert (Hin : "conv-002" ∈ ids (conversations initial_state)).
  { vm_compute. apply list_elem_of_further, list_elem_of_here. }
  split; [exact Hnd|]. split; [exact Hin|].
  apply (delete_then_get initial_state "conv-002" Hnd Hin).
Defined.

(** X5: a GET made right after an update that does not carry an [id]
    gives the answer of the update: the merged record with 200, or 404
    when no record has the id. *)
Theorem update_then_get (st : state) (id : string) (body : Body.t) :
  Body.id body = None ->
  fst (get_conversation (snd (put_conversation st id body)) id)
  = fst (put_conversation st id body).
Proof.
  intros Hbody.
  destruct (decide (id ∈ ids (conversations st))) as [Hin|Hout].
  - destruct (split_at_first_id id _ Hin) as (l1 & c & l2 & Hcs & Hc & Hl1).
    rewrite (put_at_split st id body l1 l2 c Hcs Hc Hl1). cbn [fst snd].
    rewrite (get_at_split _ id l1 l2 (spread c body)); [reflexivity|reflexivity| |exact Hl1].
    rewrite spread_keeps_id by exact Hbody. exact Hc.
  - rewrite (put_missing st id body Hout). cbn [fst snd].
    rewrite (get_missing st id Hout). reflexivity.
Qed.

Lemma update_then_get_witness :
  fst (get_conversation
         (snd (put_conversation initial_state "conv-004" falsy_body)) "conv-004")
  = fst (put_conversation initial_state "conv-004" falsy_body).
Proof. apply (update_then_get initial_state "conv-004" falsy_body). reflexivity. Defined.

(** X6: an update that does not carry an [id] is idempotent: sending the
    same request a second time gives the same answer and leaves the state
    as the first one left it. *)
Theorem update_idempotent (st : state) (id : string) (body : Body.t) :
  Body.id body = None ->
  put_conversation (snd (put_conversation st id body)) id body
  = put_conversation st id body.
Proof.
  intros Hbody.
  destruct (decide (id ∈ ids (conversations st))) as [Hin|Hout].
  - destruct (split_at_first_id id _ Hin) as (l1 & c & l2 & Hcs & Hc & Hl1).
    rewrite (put_at_split st id body l1 l2 c Hcs Hc Hl1). cbn [snd].
    rewrite (put_at_split _ id body l1 l2 (spread c body));
      [|reflexivity| |exact Hl1].
    + rewrite spread_idempotent. reflexivity.
    + rewrite spread_keeps_id by exact Hbody. exact Hc.
  - rewrite (put_missing st id body Hout). cbn [snd].
    apply (put_missing st id body Hout).
Qed.

Lemma update_idempotent_witness :
  put_conversation (snd (put_conversation initial_state "conv-004" falsy_body))
    "conv-004" falsy_body
  = put_conversation initial_state "conv-004" falsy_body.
Proof. apply (update_idempotent initial_state "conv-004" falsy_body). reflexivity. Defined.

(** ** Messages *)




(** ** Ids that stay distinct *)

Lemma ids_replace (l1 l2 : list Conversation.t) (c c' : Conversation.t) :
  Conversation.id c' = Conversation.id c ->
  ids (l1 ++ c' :: l2) = ids (l1 ++ c :: l2).
Proof. intros H. rewrite !ids_app. unfold ids. cbn [map]. rewrite H. reflexivity. Qed.

(** X9: pairwise distinct ids stay pairwise distinct under a delete,
    under a message append, under an update whose body carries no [id]
    (these two leave the list of ids as it is), and under a create whose
    generated id is not yet in the store. *)
Theorem distinct_ids_preserved (st : state) :
  NoDup (ids (conversations st)) ->
  (forall id, NoDup (ids (conversations (snd (delete_conversation st id))))) /\
  (forall id role text now,
     ids (conversations (snd (post_conversation_messages st id role text now)))
       = ids (conversations st)) /\
  (forall id body, Body.id body = None ->
     ids (conversations (snd (put_conversation st id body))) = ids (conversations st)) /\
  (forall body r now, generateId r ∉ ids (conversations st) ->
     NoDup (ids (conversations (snd (post_conversations st body r now))))).
Proof.
  intros Hnodup. repeat split.
  - intros id. destruct (decide (id ∈ ids (conversations st))) as [Hin|Hout].
    + destruct (split_at_first_id id _ Hin) as (l1 & c & l2 & Hcs & Hc & Hl1).
      rewrite (delete_at_split st id l1 l2 c Hcs Hc Hl1). cbn [snd conversations].
      rewrite Hcs, ids_app in Hnodup. unfold ids at 2 in Hnodup. cbn [map] in Hnodup.
      apply NoDup_app in Hnodup as (Hn1 & Hdisj & Hn2).
      apply NoDup_cons in Hn2 as (_ & Hn2).
      rewrite ids_app. apply NoDup_app. split; [exact Hn1|]. split; [|exact Hn2].
      intros x Hx Hx'. apply (Hdisj x Hx). apply list_elem_of_further. exact Hx'.
    + rewrite (delete_missing st id Hout). exact Hnodup.
  - intros id role text now.
    destruct (decide (id ∈ ids (conversations st))) as [Hin|Hout].
    + destruct (split_at_first_id id _ Hin) as (l1 & c & l2 & Hcs & Hc & Hl1).
      rewrite (message_at_split st id role text now l1 l2 c Hcs Hc Hl1).
      cbn [snd conversations]. rewrite Hcs. apply ids_replace. reflexivity.
    + rewrite (message_missing st id role text now Hout). reflexivity.
  - intros id body Hbody.
    destruct (decide (id ∈ ids (conversations st))) as [Hin|Hout].
    + destruct (split_at_first_id id _ Hin) as (l1 & c & l2 & Hcs & Hc & Hl1).
      rewrite (put_at_split st id body l1 l2 c Hcs Hc Hl1).
      cbn [snd conversations]. rewrite Hcs. apply ids_replace.
      apply spread_keeps_id. exact Hbody.
    + rewrite (put_missing st id body Hout). reflexivity.
  - intros body r now Hfresh. unfold post_conversations. cbn [snd conversations].
    unfold ids. cbn [map]. apply NoDup_cons. split; [exact Hfresh|exact Hnodup].
Qed.

Lemma distinct_ids_preserved_witness :
  NoDup (ids (conversations initial_state)) /\
  NoDup (ids (conversations (snd (delete_conversation initial_state "conv-003")))) /\
  NoDup (ids (conversations
                (snd (post_conversations initial_state Body.empty "k3j9x2a"
                        "2024-02-01T08:00:00.000Z")))).
Proof.
  assert (Hnd : NoDup (ids (conversations initial_state))).
  { vm_compute. repeat (apply NoDup_cons; split;
      [intros H; repeat (apply elem_of_cons in H as [H|H]; [discriminate H|]); inversion H|]).
    apply NoDup_nil. exact I. }
  destruct (distinct_ids_preserved initial_state Hnd) as (Hdel & _ & _ & Hcreate).
  split; [exact Hnd|]. split; [apply Hdel|].
  apply Hcreate. vm_compute. intros H.
  repeat (apply elem_of_cons in H as [H|H]; [discriminate H|]). inversion H.
Defined.

(** ** Sessions *)

Lemma issued_not_inherited (k : string) : issued k -> k ∉ Object_prototype_keys.
Proof.
  intros (r & [-> | ->]);
    [apply generateToken_not_inherited|apply refreshToken_not_inherited].
Qed.



Lemma step_keeps_issued (st st' : state) :
  step st st' ->
  (forall k, is_Some (tokenStore st !! k) -> issued k) ->
  (forall k, is_Some (tokenStore st' !! k) -> issued k).
Proof.
  intros Hstep Hinv k. destruct Hstep.
  - unfold post_auth_login. destruct (authenticate email password); [|apply Hinv].
    cbn [snd tokenStore]. rewrite !lookup_insert. repeat case_decide.
    + intros _. exists r2. right. congruence.
    + intros _. exists r1. left. congruence.
    + apply Hinv.
  - unfold post_auth_refresh. destruct (tokenStore_get _ _); [|apply Hinv].
    cbn [snd tokenStore]. rewrite !lookup_insert. repeat case_decide.
    + intros _. exists r2. right. congruence.
    + intros _. exists r1. left. congruence.
    + rewrite lookup_delete. case_decide; [intros [? ?]; discriminate|apply Hinv].
  - unfold post_auth_logout. cbn [snd]. destruct (JS.truthy _); [|apply Hinv].
    cbn [tokenStore]. rewrite lookup_delete.
    case_decide; [intros [? ?]; discriminate|apply Hinv].
  - apply Hinv.
  - unfold put_conversation. destruct (JS.findIndex _ _); apply Hinv.
  - unfold delete_conversation. destruct (JS.findIndex _ _); apply Hinv.
  - unfold post_conversation_messages. destruct (JS.findIndex _ _); apply Hinv.
Qed.

(** The token store of a running server binds issued tokens only. *)
Lemma reachable_keys_issued (st : state) :
  reachable st -> forall k, is_Some (tokenStore st !! k) -> issued k.
Proof.
  unfold reachable. intros Hreach.
  refine (rtc_ind_r (fun s => forall k, is_Some (tokenStore s !! k) -> issued k)
            initial_state _ _ st Hreach).
  - intros k [p Hp]. cbn in Hp. rewrite lookup_empty in Hp. discriminate.
  - intros y z _ Hstep IH. exact (step_keeps_issued y z Hstep IH).
Qed.

Lemma reachable_unbound (st : state) (k : string) :
  reachable st -> ~ issued k -> tokenStore st !! k = None.
Proof.
  intros Hreach Hk. destruct (tokenStore st !! k) eqn:E; [|reflexivity].
  exfalso. apply Hk. apply (reachable_keys_issued st Hreach). rewrite E. eexists; reflexivity.
Qed.

Lemma bearer_of_header (t : string) : bearer (Some ("Bearer " ++ t)) = Some t.
Proof. unfold bearer. cbn. destruct t; reflexivity. Qed.






Lemma initial_reachable : reachable initial_state.
Proof. unfold reachable. apply rtc_refl. Qed.


(** X12: [tokenStore] is a plain object, so the name of a member of
    [Object.prototype] ("constructor", "toString", "__proto__", ...) is
    accepted as a token.  On a running server a refresh that presents
    such a name answers 200 with a fresh pair of tokens, without any
    login; the [user] of the answer has no email and no role, and the
    fresh tokens are bound to that member. *)
Theorem refresh_accepts_inherited_names (st : state)
    (refreshToken authorization : option string) (r1 r2 k : string) :
  reachable st ->
  k ∈ Object_prototype_keys ->
  tokenToVerify refreshToken authorization = Some k ->
  post_auth_refresh st refreshToken authorization r1 r2 =
    (mkResponse 200
       (Session (generateToken r1) ("ref-" ++ generateToken r2)
          (mkView None (principal_name (Builtin k)) None)),
     mkState (conversations st)
       (<["ref-" ++ generateToken r2 := Builtin k]>
          (<[generateToken r1 := Builtin k]> (tokenStore st)))) /\
  tokenStore_get
    (tokenStore (snd (post_auth_refresh st refreshToken authorization r1 r2)))
    (generateToken r1) = Some (Builtin k).
Proof.
  intros Hreach Hk Htok.
  assert (Hfree : tokenStore st !! k = None).
  { apply (reachable_unbound st k Hreach). intros Hi.
    exact (issued_not_inherited k Hi Hk). }
  assert (Hget : tokenStore_get (tokenStore st) k = Some (Builtin k)).
  { unfold tokenStore_get. rewrite Hfree. case_bool_decide; [reflexivity|contradiction]. }
  unfold post_auth_refresh. rewrite Htok. cbn [JS.ToString]. rewrite Hget.
  rewrite (delete_id _ _ Hfree). cbn [fst snd tokenStore]. split; [reflexivity|].
  apply tokenStore_get_own.
  rewrite lookup_insert_ne by (symmetry; apply access_is_not_refresh).
  apply lookup_insert_eq.
Qed.

Lemma refresh_accepts_inherited_names_witness :
  code (fst (post_auth_refresh initial_state (Some "constructor") None
               "a1b2c3" "d4e5f6")) = 200 /\
  json (fst (post_auth_refresh initial_state (Some "constructor") None
               "a1b2c3" "d4e5f6"))
    = Session "token-a1b2c3" "ref-token-d4e5f6" (mkView None (Some "Object") None).
Proof.
  destruct (refresh_accepts_inherited_names initial_state (Some "constructor") None
              "a1b2c3" "d4e5f6" "constructor" initial_reachable) as [H _].
  - apply list_elem_of_here.
  - reflexivity.
  - rewrite H. split; reflexivity.
Defined.

(** X13: a logout revokes the access token only.  After a login and a
    logout with [Authorization: Bearer <access token>], the access token
    no longer resolves and a refresh with it answers 401, while a refresh
    with the refresh token of the same login still answers 200 with a
    fresh pair for the same user. *)
Theorem logout_revokes_access_only (st : state) (email password : option string)
    (r1 r2 r3 r4 : string) (u : User.t) :
  authenticate email password = Some u ->
  let access := generateToken r1 in
  let refresh := "ref-" ++ generateToken r2 in
  let st1 := snd (post_auth_login st email password r1 r2) in
  let st2 := snd (post_auth_logout st1 (Some ("Bearer " ++ access))) in
  tokenStore_get (tokenStore st2) access = None /\
  post_auth_refresh st2 (Some access) None r3 r4
    = (mkResponse 401 (Failure "Invalid token"), st2) /\
  tokenStore_get (tokenStore st2) refresh = Some (Account u) /\
  fst (post_auth_refresh st2 (Some refresh) None r3 r4)
    = mkResponse 200 (Session (generateToken r3) ("ref-" ++ generateToken r4)
                        (view (Account u))).
Proof.
  intros Hauth access refresh st1 st2. subst st2 st1.
  rewrite (login_issues_pair st _ _ r1 r2 u Hauth). cbn [snd].
  assert (Hlogout :
    snd (post_auth_logout
           (mkState (conversations st)
              (<[refresh := Account u]> (<[access := Account u]> (tokenStore st))))
           (Some ("Bearer " ++ access)))
    = mkState (conversations st)
        (delete access (<[refresh := Account u]>
                          (<[access := Account u]> (tokenStore st))))).
  { unfold post_auth_logout. rewrite bearer_of_header. reflexivity. }
  fold access refresh. rewrite Hlogout.
  set (ts2 := delete access _).
  assert (Hdiff : access <> refresh) by apply access_is_not_refresh.
  assert (Hacc : ts2 !! access = None) by apply lookup_delete_eq.
  assert (Href : ts2 !! refresh = Some (Account u)).
  { subst ts2. rewrite lookup_delete_ne by exact Hdiff. apply lookup_insert_eq. }
  assert (Hgone : tokenStore_get ts2 access = None).
  { apply tokenStore_get_missing; [exact Hacc|apply generateToken_not_inherited]. }
  cbn [tokenStore].
  split; [exact Hgone|]. split.
  - unfold post_auth_refresh.
    assert (Ht : tokenToVerify (Some access) None = Some access) by reflexivity.
    rewrite Ht. cbn [JS.ToString tokenStore]. rewrite Hgone. reflexivity.
  - split; [apply tokenStore_get_own; exact Href|].
    unfold post_auth_refresh.
    assert (Ht : tokenToVerify (Some refresh) None = Some refresh) by reflexivity.
    rewrite Ht. cbn [JS.ToString tokenStore].
    rewrite (tokenStore_get_own _ _ _ Href). reflexivity.
Qed.

Lemma logout_revokes_access_only_witness :
  authenticate (Some "admin@crestastream.com") (Some "admin123") = Some admin /\
  let st1 := snd (post_auth_login initial_state (Some "admin@crestastream.com")
                    (Some "admin123") "a1b2c3" "d4e5f6") in
  let st2 := snd (post_auth_logout st1 (Some "Bearer token-a1b2c3")) in
  post_auth_refresh st2 (Some "token-a1b2c3") None "g7h8i9" "j0k1l2"
    = (mkResponse 401 (Failure "Invalid token"), st2) /\
  fst (post_auth_refresh st2 (Some "ref-token-d4e5f6") None "g7h8i9" "j0k1l2")
    = mkResponse 200 (Session "token-g7h8i9" "ref-token-j0k1l2" (view (Account admin))).
Proof.
  split; [reflexivity|].
  destruct (logout_revokes_access_only initial_state (Some "admin@crestastream.com")
              (Some "admin123") "a1b2c3" "d4e5f6" "g7h8i9" "j0k1l2" admin eq_refl)
    as (_ & H401 & _ & H200).
  split; [exact H401|exact H200].
Defined.

(** ** Numbers in the query string *)

Example String_of_int_ex1 : JSText.String_of_int 0 = "0". Proof. reflexivity. Qed.
Example String_of_int_ex2 : JSText.String_of_int 1024 = "1024". Proof. reflexivity. Qed.
Example String_of_int_ex3 : JSText.String_of_int (-907) = "-907". Proof. reflexivity. Qed.
Example String_of_int_ex4 :
  JSText.String_of_int 123456789012345683968 = "123456789012345680000".
Proof. vm_compute. reflexivity. Qed.
Example String_of_int_ex5 : JSText.String_of_int 9007199254740993 = "9007199254740992".
Proof. vm_compute. reflexivity. Qed.
Example String_of_int_ex6 : JSText.String_of_int (10 ^ 21) = "1e+21".
Proof. vm_compute. reflexivity. Qed.
Example String_of_int_ex7 :
  JSText.String_of_int (- 2 ^ 70) = "-1.1805916207174113e+21".
Proof. vm_compute. reflexivity. Qed.
Example String_of_int_ex8 : JSText.String_of_int (10 ^ 309) = "Infinity".
Proof. vm_compute. reflexivity. Qed.
Example String_of_int_ex9 :
  JSText.String_of_int 18014398509481985 = "18014398509481984"
  /\ JSText.String_of_int 4611686018427387904 = "4611686018427388000".
Proof. split; vm_compute; reflexivity. Qed.

Lemma digit_cases (d : Z) :
  0 <= d < 10 ->
  d = 0 \/ d = 1 \/ d = 2 \/ d = 3 \/ d = 4 \/ d = 5 \/ d = 6 \/ d = 7 \/ d = 8 \/ d = 9.
Proof. lia. Qed.

Ltac each_digit H :=
  apply digit_cases in H;
  repeat (destruct H as [H|H]; [subst|]); subst.

Lemma digit_value_digit_char (d : Z) :
  0 <= d < 10 -> JS.digit_value (JSText.digit_char d) = Some d.
Proof. intros H. each_digit H; reflexivity. Qed.

Lemma digit_char_not_space (d : Z) :
  0 <= d < 10 -> JS.is_space (JSText.digit_char d) = false.
Proof. intros H. each_digit H; reflexivity. Qed.

Lemma read_one_digit (a : option Z) (d : Z) (s : string) :
  0 <= d < 10 ->
  JS.read_digits 10 a (String (JSText.digit_char d) s)
  = JS.read_digits 10 (Some (10 * default 0 a + d)) s.
Proof.
  intros H. cbn [JS.read_digits]. rewrite (digit_value_digit_char d H).
  destruct (Z.ltb_spec d 10); [reflexivity|lia].
Qed.

(** Reading the digits that [digits] wrote gives the number back, after
    whatever was read before. *)
Lemma read_digits_digits (fuel : nat) :
  forall (n : Z) (s : string) (a : option Z),
    0 <= n < 10 ^ (Z.of_nat fuel + 1) ->
    exists k, 0 < k /\
      JS.read_digits 10 a (JSText.digits fuel n s)
      = JS.read_digits 10 (Some (default 0 a * 10 ^ k + n)) s.
Proof.
  induction fuel as [|fuel IH]; intros n s a Hn.
  - cbn [JSText.digits]. change (Z.of_nat 0 + 1) with 1 in Hn.
    rewrite Z.pow_1_r in Hn. rewrite Z.mod_small by lia.
    exists 1. split; [lia|]. rewrite read_one_digit by lia.
    rewrite Z.pow_1_r. do 2 f_equal. lia.
  - cbn [JSText.digits]. destruct (Z.ltb_spec n 10) as [Hsmall|Hbig].
    + rewrite Z.mod_small by lia.
      exists 1. split; [lia|]. rewrite read_one_digit by lia.
      rewrite Z.pow_1_r. do 2 f_equal. lia.
    + assert (Hmod : 0 <= n mod 10 < 10) by (apply Z.mod_pos_bound; lia).
      assert (Hdiv : 0 <= n / 10 < 10 ^ (Z.of_nat fuel + 1)).
      { split; [apply Z.div_pos; lia|].
        apply Z.div_lt_upper_bound; [lia|].
        replace (Z.of_nat (S fuel) + 1) with (Z.succ (Z.of_nat fuel + 1)) in Hn by lia.
        rewrite Z.pow_succ_r in Hn by lia. lia. }
      destruct (IH (n / 10) (String (JSText.digit_char (n mod 10)) s) a Hdiv)
        as (k & Hk & Hread).
      exists (k + 1). split; [lia|]. rewrite Hread, read_one_digit by exact Hmod.
      do 2 f_equal. cbn [default]. rewrite Z.pow_add_r, Z.pow_1_r by lia.
      pose proof (Z.div_mod n 10 ltac:(lia)) as Hdm.
      generalize dependent (10 ^ k). generalize (default 0 a).
      generalize dependent (n / 10). generalize dependent (n mod 10).
      intros. unfold id. nia.
Qed.

Lemma digits_shape (fuel : nat) :
  forall (n : Z) (acc : string),
    0 <= n -> digit_led acc ->
    exists d t, 0 <= d < 10 /\
      JSText.digits fuel n acc = String (JSText.digit_char d) t /\ digit_led t.
Proof.
  induction fuel as [|fuel IH]; intros n acc Hn Hacc.
  - cbn [JSText.digits]. exists (n mod 10), acc.
    split; [apply Z.mod_pos_bound; lia|]. split; [reflexivity|exact Hacc].
  - cbn [JSText.digits]. destruct (Z.ltb_spec n 10) as [Hsmall|Hbig].
    + exists (n mod 10), acc.
      split; [apply Z.mod_pos_bound; lia|]. split; [reflexivity|exact Hacc].
    + apply IH; [apply Z.div_pos; lia|].
      right. exists (n mod 10), acc. split; [apply Z.mod_pos_bound; lia|reflexivity].
Qed.

Lemma digit_led_no_prefix (d : Z) (t : string) :
  0 <= d < 10 -> digit_led t ->
  JS.skip_spaces (String (JSText.digit_char d) t) = String (JSText.digit_char d) t /\
  JS.strip_sign (String (JSText.digit_char d) t) = (false, String (JSText.digit_char d) t) /\
  JS.strip_hex_prefix (String (JSText.digit_char d) t)
  = (10, String (JSText.digit_char d) t).
Proof.
  intros Hd Ht. split; [|split].
  - each_digit Hd; destruct t as [|b [|c t]]; reflexivity.
  - each_digit Hd; reflexivity.
  - destruct Ht as [->|(d' & t' & Hd' & ->)].
    + each_digit Hd; reflexivity.
    + each_digit Hd; try reflexivity. each_digit Hd'; reflexivity.
Qed.

Lemma parse_digit_led (d : Z) (t : string) :
  0 <= d < 10 -> digit_led t ->
  JS.parseInt (String (JSText.digit_char d) t)
  = match JS.read_digits 10 None (String (JSText.digit_char d) t) with
    | Some n => JS.round64 n
    | None => JS.NaN
    end.
Proof.
  intros Hd Ht. destruct (digit_led_no_prefix d t Hd Ht) as (Hskip & Hsign & Hhex).
  unfold JS.parseInt. rewrite Hskip, Hsign, Hhex. reflexivity.
Qed.

Lemma log2_fuel (n : Z) : 0 <= n -> n < 10 ^ (Z.of_nat (Z.to_nat (Z.log2 n)) + 1).
Proof.
  intros Hn. rewrite Z2Nat.id by apply Z.log2_nonneg.
  destruct (Z.eq_dec n 0) as [->|Hpos]; [reflexivity|].
  pose proof (Z.log2_spec n ltac:(lia)) as [_ Hlt].
  pose proof (Z.log2_nonneg n).
  eapply Z.lt_le_trans; [exact Hlt|].
  replace (Z.succ (Z.log2 n)) with (Z.log2 n + 1) by lia.
  apply Z.pow_le_mono_l. lia.
Qed.

Lemma read_decimal (n : Z) :
  0 <= n -> JS.read_digits 10 None (JSText.decimal n) = Some n.
Proof.
  intros Hn. unfold JSText.decimal.
  destruct (read_digits_digits (Z.to_nat (Z.log2 n)) n "" None
              (conj Hn (log2_fuel n Hn))) as (k & _ & Hread).
  rewrite Hread. cbn [JS.read_digits default]. f_equal; lia.
Qed.

Lemma parseInt_decimal (n : Z) :
  0 <= n -> JS.parseInt (JSText.decimal n) = JS.round64 n.
Proof.
  intros Hn.
  destruct (digits_shape (Z.to_nat (Z.log2 n)) n "" Hn (or_introl eq_refl))
    as (d & t & Hd & Hshape & Ht).
  pose proof (read_decimal n Hn) as Hread.
  unfold JSText.decimal in *.
  rewrite Hshape in *. rewrite (parse_digit_led d t Hd Ht), Hread. reflexivity.
Qed.

Lemma parseInt_minus_decimal (n : Z) :
  0 <= n -> JS.parseInt (String "-" (JSText.decimal n)) = JS.round64 (- n).
Proof.
  intros Hn.
  destruct (digits_shape (Z.to_nat (Z.log2 n)) n "" Hn (or_introl eq_refl))
    as (d & t & Hd & Hshape & Ht).
  pose proof (read_decimal n Hn) as Hread.
  destruct (digit_led_no_prefix d t Hd Ht) as (_ & _ & Hhex).
  unfold JSText.decimal in *. rewrite Hshape in *.
  unfold JS.parseInt.
  assert (Hskip : JS.skip_spaces (String "-" (String (JSText.digit_char d) t))
                  = String "-" (String (JSText.digit_char d) t))
    by (destruct t; reflexivity).
  rewrite Hskip. cbn [JS.strip_sign]. rewrite Hhex, Hread. reflexivity.
Qed.

(** Below 2^53, what [String] writes is read back by [parseInt]. *)
Lemma parseInt_String_of_int (n : Z) :
  Z.abs n < 2 ^ 53 -> JS.parseInt (JSText.String_of_int n) = JS.Int n.
Proof.
  intros Hsafe. unfold JSText.String_of_int.
  rewrite (round64_small n Hsafe).
  destruct (Z.ltb_spec (Z.abs n) (2 ^ 53)) as [_|?]; [|lia].
  destruct (Z.ltb_spec n 0) as [Hneg|Hpos].
  - change ("-" ++ JSText.decimal (Z.abs n)) with (String "-" (JSText.decimal (Z.abs n))).
    rewrite parseInt_minus_decimal by lia.
    rewrite <- (round64_small n Hsafe). f_equal. lia.
  - change ("" ++ JSText.decimal (Z.abs n)) with (JSText.decimal (Z.abs n)).
    rewrite parseInt_decimal by lia.
    rewrite <- (round64_small n Hsafe). f_equal. lia.
Qed.

(** X14: an integer that the client writes into the query string with
    [String(value)] is the number that the server reads back with
    [parseInt], for every integer below 2^53 in absolute value (the
    integers that a number holds exactly); so the page of such a request
    is the page the client asked for, except page 0, which the server
    replaces by 1. *)
Theorem client_number_round_trip (n : Z) (q : Query.t) :
  Z.abs n < 2 ^ 53 ->
  JS.parseInt (JSText.String_of_int n) = JS.Int n /\
  (n <> 0 -> page_of (for_page n q) = JS.Int n) /\
  (n = 0 -> page_of (for_page n q) = JS.Int 1) /\
  limit_of (for_page n q) = limit_of q.
Proof.
  intros Hsafe. split; [apply parseInt_String_of_int; exact Hsafe|].
  unfold page_of, for_page. cbn [Query.set_page Query.page Query.ToString Query.text].
  rewrite (parseInt_String_of_int n Hsafe). split; [|split].
  - intros Hn. cbn. destruct (Z.eqb_spec n 0); [contradiction|reflexivity].
  - intros ->. reflexivity.
  - reflexivity.
Qed.

Lemma client_number_round_trip_witness :
  Z.abs 42 < 2 ^ 53 /\
  JS.parseInt (JSText.String_of_int 42) = JS.Int 42 /\
  page_of (for_page 42 Query.empty) = JS.Int 42.
Proof.
  assert (H : Z.abs 42 < 2 ^ 53) by reflexivity.
  destruct (client_number_round_trip 42 Query.empty H) as (Hparse & Hpage & _).
  split; [exact H|]. split; [exact Hparse|]. apply Hpage. discriminate.
Defined.

(** ** More on the listing *)



Section MoreListing.

Variable toLowerCase : string -> string.






End MoreListing.



(** ** Counts of the metrics *)

Lemma count_cons (p : Conversation.t -> bool) (c : Conversation.t)
    (cs : list Conversation.t) :
  count p (c :: cs) = ((if p c then 1 else 0) + count p cs)%nat.
Proof. unfold count. cbn [List.filter]. destruct (p c); reflexivity. Qed.

(** The sentiments that the metrics count. *)
Lemma counted_sentiment_cases (s : string) :
  (s = "positive" \/ s = "negative" \/ s = "neutral") <->
  ((if String.eqb s "positive" then 1 else 0)
   + (if String.eqb s "negative" then 1 else 0)
   + (if String.eqb s "neutral" then 1 else 0) = 1)%nat.
Proof.
  destruct (String.eqb_spec s "positive") as [->|H1]; [cbn; intuition|].
  destruct (String.eqb_spec s "negative") as [->|H2]; [cbn; intuition|].
  destruct (String.eqb_spec s "neutral") as [->|H3]; [cbn; intuition|].
  cbn. intuition; discriminate.
Qed.

Lemma counted_sentiment_le (s : string) :
  ((if String.eqb s "positive" then 1 else 0)
   + (if String.eqb s "negative" then 1 else 0)
   + (if String.eqb s "neutral" then 1 else 0) <= 1)%nat.
Proof.
  destruct (String.eqb_spec s "positive") as [->|H1]; [cbn; lia|].
  destruct (String.eqb_spec s "negative") as [->|H2]; [cbn; lia|].
  destruct (String.eqb_spec s "neutral"); cbn; lia.
Qed.

(** X18: in the metrics, [totalConversations] is the size of the store,
    and the three sentiment counts add up to at most that; they add up
    to it exactly when every record's sentiment is one of "positive",
    "negative" and "neutral" (the server stores any text a client
    sends). *)
Theorem sentiment_counts (cs : list Conversation.t) :
  let m := calculateMetrics cs in
  totalConversations m = length cs /\
  (positiveCount m + negativeCount m + neutralCount m <= totalConversations m)%nat /\
  ((positiveCount m + negativeCount m + neutralCount m = totalConversations m)%nat <->
   forall c, c ∈ cs ->
     Conversation.sentiment c = "positive" \/ Conversation.sentiment c = "negative" \/
     Conversation.sentiment c = "neutral").
Proof.
  cbn zeta. unfold calculateMetrics.
  cbn [totalConversations positiveCount negativeCount neutralCount].
  split; [reflexivity|].
  induction cs as [|c cs [IHle IHeq]].
  - split; [reflexivity|]. split; [intros _ c Hc; inversion Hc|reflexivity].
  - rewrite !count_cons. cbn [length].
    pose proof (counted_sentiment_le (Conversation.sentiment c)) as Hle.
    pose proof (counted_sentiment_cases (Conversation.sentiment c)) as Hcases.
    split; [lia|]. split.
    + intros Hsum c' Hc'. apply elem_of_cons in Hc' as [->|Hc'].
      * apply Hcases. lia.
      * apply IHeq; [lia|exact Hc'].
    + intros Hall.
      assert (H1 : forall c', c' ∈ cs ->
                Conversation.sentiment c' = "positive" \/
                Conversation.sentiment c' = "negative" \/
                Conversation.sentiment c' = "neutral")
        by (intros c' Hc'; apply Hall; apply list_elem_of_further; exact Hc').
      apply IHeq in H1.
      assert (H2 := proj1 Hcases (Hall c (list_elem_of_here _ _))). lia.
Qed.

(** X19: a create adds one to [totalConversations] of the metrics, and,
    when the body gives no sentiment (or an empty one), one to
    [neutralCount] and nothing to the two other counts. *)
Theorem create_counts (st : state) (body : Body.t) (r now : string) :
  let m := calculateMetrics (conversations st) in
  let m' := calculateMetrics (conversations (snd (post_conversations st body r now))) in
  totalConversations m' = S (totalConversations m) /\
  (JS.truthy (Body.sentiment body) = false ->
   neutralCount m' = S (neutralCount m) /\
   positiveCount m' = positiveCount m /\
   negativeCount m' = negativeCount m).
Proof.
  cbn zeta. unfold post_conversations, calculateMetrics.
  cbn [snd conversations totalConversations neutralCount positiveCount negativeCount length].
  split; [reflexivity|]. intros Hfalsy. rewrite !count_cons.
  assert (Hs : Conversation.sentiment (newConversation body r now) = "neutral").
  { unfold newConversation. cbn [Conversation.sentiment].
    unfold JS.truthy in Hfalsy. unfold JS.or_else.
    destruct (Body.sentiment body) as [s|]; [|reflexivity].
    destruct (String.eqb s ""); [reflexivity|discriminate]. }
  rewrite Hs. repeat split.
Qed.

Lemma create_counts_witness :
  JS.truthy (Body.sentiment Body.empty) = false /\
  neutralCount
    (calculateMetrics
       (conversations (snd (post_conversations initial_state Body.empty "k3j9x2a"
                              "2024-02-01T08:00:00.000Z")))) = 2%nat.
Proof.
  split; [reflexivity|].
  destruct (create_counts initial_state Body.empty "k3j9x2a" "2024-02-01T08:00:00.000Z")
    as (_ & H).
  rewrite (proj1 (H eq_refl)). reflexivity.
Defined.

(** * Properties of the logger *)

Lemma append_nil (b : string) : "" ++ b = b.
Proof. reflexivity. Qed.

Lemma append_cons (x : ascii) (a b : string) : String x a ++ b = String x (a ++ b).
Proof. reflexivity. Qed.


Lemma split_nonempty (sep : ascii) (s : string) :
  exists h t, Logger.split sep s = h :: t.
Proof.
  induction s as [|a s (h & t & IH)]; cbn [Logger.split].
  - eexists. eexists. reflexivity.
  - destruct (Ascii.eqb a sep); [eexists; eexists; reflexivity|].
    rewrite IH. eexists. eexists. reflexivity.
Qed.

Lemma split_first (sep : ascii) (a b : string) :
  Logger.free_of sep a ->
  Logger.split sep (a ++ String sep b) = a :: Logger.split sep b.
Proof.
  induction a as [|x a IH]; cbn [Logger.free_of].
  - intros _. rewrite append_nil. cbn [Logger.split].
    rewrite Ascii.eqb_refl. reflexivity.
  - intros (Hx & Ha). rewrite append_cons. cbn [Logger.split].
    apply Ascii.eqb_neq in Hx. rewrite Hx, (IH Ha). reflexivity.
Qed.

Lemma split_head_app (sep : ascii) (a b : string) :
  Logger.free_of sep a ->
  exists h, head (Logger.split sep b) = Some h /\
            head (Logger.split sep (a ++ b)) = Some (a ++ h).
Proof.
  induction a as [|x a IH]; cbn [Logger.free_of].
  - intros _. destruct (split_nonempty sep b) as (h & t & E).
    exists h. rewrite append_nil, E. split; reflexivity.
  - intros (Hx & Ha). destruct (IH Ha) as (h & Hb & Hab).
    exists h. split; [exact Hb|]. rewrite !append_cons. cbn [Logger.split].
    apply Ascii.eqb_neq in Hx. rewrite Hx.
    destruct (Logger.split sep (a ++ b)) as [|h' t'] eqn:E; [discriminate Hab|].
    cbn [head] in *. injection Hab as ->. reflexivity.
Qed.


Lemma clock_of_iso (timestamp date time rest : string) :
  Logger.iso timestamp date time rest -> Logger.clock timestamp = Some time.
Proof.
  intros (-> & Hdate & HtimeT & Htime_dot). unfold Logger.clock.
  assert (E : date ++ "T" ++ time ++ "." ++ rest
              = date ++ String "T" (time ++ String "." rest)) by reflexivity.
  rewrite E, (split_first "T" date _ Hdate).
  destruct (split_head_app "T" time (String "." rest) HtimeT) as (h & Hh & Hseg).
  assert (Hlook : (date :: Logger.split "T" (time ++ String "." rest)) !! 1%nat
                  = Some (time ++ h)).
  { destruct (Logger.split "T" (time ++ String "." rest)); [discriminate Hseg|exact Hseg]. }
  rewrite Hlook.
  assert (Hdot : exists h', h = String "." h').
  { cbn [Logger.split] in Hh. change (Ascii.eqb "." "T") with false in Hh.
    destruct (Logger.split "T" rest) as [|h' t']; cbn [head] in Hh;
      injection Hh as <-; eexists; reflexivity. }
  destruct Hdot as (h' & ->).
  rewrite (split_first "." time h' Htime_dot). reflexivity.
Qed.

Section LoggerProperties.

Variable JSON_stringify : Logger.context -> string.


(** X21: the minimum level never hides an error.  With the console
    on, an error and a failed assertion print a line under every
    [minLevel]; a debug message prints nothing unless [minLevel] is
    DEBUG; and under [minLevel] WARN or ERROR the user actions, the
    informations and the assertions that passed print nothing. *)
Theorem errors_are_never_filtered (l : Logger.t) (g : Logger.statics)
    (message description : string) (c : option Logger.context)
    (now date time rest : string) :
  Logger.iso now date time rest ->
  Logger.enableConsole l = true ->
  (exists text more,
     Logger.error JSON_stringify l g message c now
     = (Logger.Console text :: more, Logger.Returned)) /\
  (exists text more,
     Logger.assertion JSON_stringify l g description false now
     = (Logger.Console text :: more, Logger.Returned)) /\
  (Logger.minLevel l <> Logger.DEBUG ->
   Logger.debug JSON_stringify l g message c now = ([], Logger.Returned)) /\
  (Logger.minLevel l = Logger.WARN \/ Logger.minLevel l = Logger.ERROR ->
   Logger.action JSON_stringify l g message c now = ([], Logger.Returned) /\
   Logger.info JSON_stringify l g message c now = ([], Logger.Returned) /\
   Logger.assertion JSON_stringify l g description true now = ([], Logger.Returned)).
Proof.
  intros Hiso Hconsole.
  assert (Herr : forall msg ctx, exists text more,
            Logger.log JSON_stringify l g Logger.ERROR msg ctx now
            = (Logger.Console text :: more, Logger.Returned)).
  { intros msg ctx. unfold Logger.log.
    assert (Hpass : (Logger.LevelPriority Logger.ERROR
                     <? Logger.LevelPriority (Logger.minLevel l)) = false)
      by (destruct (Logger.minLevel l); reflexivity).
    rewrite Hpass, Hconsole. unfold Logger.formatForConsole.
    cbn [Logger.Entry.timestamp]. rewrite (clock_of_iso now date time rest Hiso).
    eexists. eexists. reflexivity. }
  split; [apply Herr|]. split; [apply Herr|]. split.
  - intros Hmin. unfold Logger.debug, Logger.log.
    destruct (Logger.minLevel l); [contradiction| | | |]; reflexivity.
  - intros [Hmin|Hmin]; unfold Logger.action, Logger.info, Logger.assertion, Logger.log;
      rewrite Hmin; repeat split.
Qed.

(** X22: the trace id of the entries of a logger is settled when the
    logger is made.  Made without a [traceId] option while a test runs,
    it tags every entry with that test's trace id, also after the test
    ended and another one started; made while no test runs (the global
    trace id is empty), it tags each entry with the trace id that is
    current when the entry is logged.  [startTest] always sets a
    non-empty trace id. *)
Theorem trace_id_is_settled_at_construction (g0 g : Logger.statics) (source : string)
    (options : Logger.Options.t) (level : Logger.LogLevel) (message : string)
    (c : option Logger.context) (now : string) (e : Logger.Entry.t) :
  Logger.Options.traceId options = None ->
  Logger.Json e ∈ fst (Logger.log JSON_stringify (Logger.new g0 source options) g
                         level message c now) ->
  (Logger.globalTraceId g0 <> "" -> Logger.Entry.traceId e = Logger.globalTraceId g0) /\
  (Logger.globalTraceId g0 = "" -> Logger.Entry.traceId e = Logger.globalTraceId g) /\
  (forall testName ms1 ms2 r iso1 iso2,
     Logger.globalTraceId (snd (Logger.startTest testName ms1 ms2 r iso1 iso2)) <> "").
Proof.
  intros Hopt Hin.
  assert (He : Logger.Entry.traceId e
               = if String.eqb (Logger.globalTraceId g0) ""
                 then Logger.globalTraceId g else Logger.globalTraceId g0).
  { unfold Logger.log, Logger.new in Hin. rewrite Hopt in Hin.
    cbn [Logger.minLevel Logger.enableConsole Logger.enableJson Logger.traceId
         Logger.source default] in Hin.
    destruct (_ <? _); [inversion Hin|].
    destruct (default true _).
    - destruct (Logger.formatForConsole _ _); [|inversion Hin].
      cbn [fst] in Hin. apply elem_of_cons in Hin as [Hin|Hin]; [discriminate Hin|].
      destruct (default false _); [|inversion Hin].
      apply list_elem_of_singleton in Hin. injection Hin as ->. reflexivity.
    - cbn [fst] in Hin. destruct (default false _); [|inversion Hin].
      apply list_elem_of_singleton in Hin. injection Hin as ->. reflexivity. }
  split; [|split].
  - intros Hne. rewrite He. destruct (String.eqb_spec (Logger.globalTraceId g0) "");
      [contradiction|reflexivity].
  - intros Heq. rewrite He, Heq. reflexivity.
  - intros testName ms1 ms2 r iso1 iso2. unfold Logger.startTest.
    cbn [snd Logger.globalTraceId]. discriminate.
Qed.

End LoggerProperties.

Lemma sample_timestamp_iso :
  Logger.iso sample_timestamp "2024-01-15" "09:30:00" "000Z".
Proof.
  unfold Logger.iso, sample_timestamp. split; [reflexivity|].
  cbn [Logger.free_of]. repeat split; discriminate.
Qed.


Lemma errors_are_never_filtered_witness :
  exists text more,
    Logger.error braces
      (Logger.mk "Test" Logger.ERROR true false "") (Logger.mkStatics "" 0)
      "request failed" None sample_timestamp
    = (Logger.Console text :: more, Logger.Returned).
Proof.
  apply (errors_are_never_filtered braces
           (Logger.mk "Test" Logger.ERROR true false "") (Logger.mkStatics "" 0)
           "request failed" "status is 200" None sample_timestamp
           "2024-01-15" "09:30:00" "000Z" sample_timestamp_iso eq_refl).
Defined.

Lemma trace_id_is_settled_at_construction_witness :
  let during := Logger.mkStatics "test-1705311000000-k3j9x2" 1705311000000 in
  let later := Logger.mkStatics "test-1705311060000-a1b2c3" 1705311060000 in
  let options := Logger.Options.mk None (Some false) (Some true) None in
  exists e,
    Logger.Json e ∈ fst (Logger.log braces (Logger.new during "Page" options) later
                           Logger.INFO "clicked" None sample_timestamp) /\
    Logger.Entry.traceId e = "test-1705311000000-k3j9x2".
Proof.
  cbn zeta. eexists. split.
  - apply list_elem_of_here.
  - refine (proj1 (trace_id_is_settled_at_construction braces
                     (Logger.mkStatics "test-1705311000000-k3j9x2" 1705311000000)
                     (Logger.mkStatics "test-1705311060000-a1b2c3" 1705311060000)
                     "Page" (Logger.Options.mk None (Some false) (Some true) None)
                     Logger.INFO "clicked" None sample_timestamp _ eq_refl _) _).
    + apply list_elem_of_here.
    + discriminate.
Defined.
